(** * Shallow embedding of pkg/maven/maven.go and cmd/nexusUpload_generated.go

    Go functions that return [(T, error)] are modelled as functions of the
    world returning [T * option error * World]; [None] is the nil error.
    The process world holds the working directory, the files visible to
    [FileExists], the trace of downloads and of runner invocations, the
    bytes written to [log.Writer()] and to the stdout buffer, and the
    writers currently configured on the runner. *)

From Stdlib Require Import String Ascii List Bool Arith Lia.
Import ListNotations.
Open Scope string_scope.
Open Scope list_scope.

Module Maven.

Definition error := string.

(** ** String helpers of the Go standard library *)

(** [strings.HasPrefix s prefix] *)
Fixpoint HasPrefix (s prefix : string) : bool :=
  match prefix, s with
  | EmptyString, _ => true
  | String _ _, EmptyString => false
  | String c p', String d s' => Ascii.eqb c d && HasPrefix s' p'
  end.

(** [strings.Contains s substr] *)
Fixpoint Contains (s substr : string) : bool :=
  HasPrefix s substr ||
  match s with
  | EmptyString => false
  | String _ s' => Contains s' substr
  end.

(** Everything before the last ['/'] of a string, if it has one. *)
Fixpoint last_slash_split (s : string) : option (string * string) :=
  match s with
  | EmptyString => None
  | String c s' =>
      match last_slash_split s' with
      | Some (d, b) => Some (String c d, b)
      | None => if Ascii.eqb c "/"%char then Some (EmptyString, s') else None
      end
  end.

(** [path.Dir p] on a clean path (as [doublestar.Glob] returns them):
    the part before the last slash, ["."] when there is none, and ["/"]
    for a file in the root directory. *)
Definition path_Dir (p : string) : string :=
  match last_slash_split p with
  | None => "."
  | Some (EmptyString, _) => "/"
  | Some (d, _) => d
  end.

(** [filepath.Join] of two non-empty elements on a Unix system. *)
Definition filepath_Join (a b : string) : string := a ++ "/" ++ b.

(** ** Options *)

Record ExecuteOptions := {
  PomPath : string;
  ProjectSettingsFile : string;
  GlobalSettingsFile : string;
  M2Path : string;
  Goals : list string;
  Defines : list string;
  Flags : list string;
  LogSuccessfulMavenTransfers : bool;
  ReturnStdout : bool
}.

Module EvalOpts.
Record EvaluateOptions := {
  PomPath : string;
  ProjectSettingsFile : string;
  GlobalSettingsFile : string;
  M2Path : string
}.
End EvalOpts.
Import EvalOpts (EvaluateOptions, Build_EvaluateOptions).

(** ** The process world *)

(** The [io.Writer]s the runner can be configured with: [log.Writer()],
    the fresh [bytes.Buffer], and an [io.MultiWriter] of two writers. *)
Inductive Writer :=
| LogW
| BufW
| MultiW (a b : Writer).

Record World := {
  cwd : string;
  (** [(directory, path)] pairs for which [FileExists] reports true *)
  files : list (string * string);
  (** [(working directory, url, filename)] of every [DownloadFile] call *)
  downloads : list (string * string * string);
  (** [(working directory, executable, parameters)] of every [RunExecutable] call *)
  calls : list (string * string * list string);
  log_out : string;
  stdout_buf : string;
  runner_stdout : Writer;
  runner_stderr : Writer
}.

Definition set_cwd (d : string) (w : World) : World :=
  {| cwd := d; files := files w; downloads := downloads w; calls := calls w;
     log_out := log_out w; stdout_buf := stdout_buf w;
     runner_stdout := runner_stdout w; runner_stderr := runner_stderr w |}.
Definition set_files (fs : list (string * string)) (w : World) : World :=
  {| cwd := cwd w; files := fs; downloads := downloads w; calls := calls w;
     log_out := log_out w; stdout_buf := stdout_buf w;
     runner_stdout := runner_stdout w; runner_stderr := runner_stderr w |}.
Definition set_downloads (ds : list (string * string * string)) (w : World) : World :=
  {| cwd := cwd w; files := files w; downloads := ds; calls := calls w;
     log_out := log_out w; stdout_buf := stdout_buf w;
     runner_stdout := runner_stdout w; runner_stderr := runner_stderr w |}.
Definition set_calls (cs : list (string * string * list string)) (w : World) : World :=
  {| cwd := cwd w; files := files w; downloads := downloads w; calls := cs;
     log_out := log_out w; stdout_buf := stdout_buf w;
     runner_stdout := runner_stdout w; runner_stderr := runner_stderr w |}.
Definition set_log_out (l : string) (w : World) : World :=
  {| cwd := cwd w; files := files w; downloads := downloads w; calls := calls w;
     log_out := l; stdout_buf := stdout_buf w;
     runner_stdout := runner_stdout w; runner_stderr := runner_stderr w |}.
Definition set_stdout_buf (b : string) (w : World) : World :=
  {| cwd := cwd w; files := files w; downloads := downloads w; calls := calls w;
     log_out := log_out w; stdout_buf := b;
     runner_stdout := runner_stdout w; runner_stderr := runner_stderr w |}.
Definition set_runner_stdout (o : Writer) (w : World) : World :=
  {| cwd := cwd w; files := files w; downloads := downloads w; calls := calls w;
     log_out := log_out w; stdout_buf := stdout_buf w;
     runner_stdout := o; runner_stderr := runner_stderr w |}.
Definition set_runner_stderr (o : Writer) (w : World) : World :=
  {| cwd := cwd w; files := files w; downloads := downloads w; calls := calls w;
     log_out := log_out w; stdout_buf := stdout_buf w;
     runner_stdout := runner_stdout w; runner_stderr := o |}.

(** [w.Write(bytes)] *)
Fixpoint write (o : Writer) (bytes : string) (w : World) : World :=
  match o with
  | LogW => set_log_out (log_out w ++ bytes) w
  | BufW => set_stdout_buf (stdout_buf w ++ bytes) w
  | MultiW a b => write b bytes (write a bytes w)
  end.

(** The behaviour of the outside world that the code only observes:
    what the external process prints and whether it fails, whether a
    download, a glob, [os.Getwd] or [os.Chdir] fails. *)
Record Env := {
  (** working directory, executable, parameters |-> stdout, stderr, error *)
  env_run : string -> string -> list string -> string * string * option error;
  (** url, filename |-> error of the HTTP download *)
  env_download : string -> string -> option error;
  (** working directory, pattern |-> matches, error *)
  env_glob : string -> string -> list string * option error;
  env_getwd_err : option error;
  (** target directory |-> error *)
  env_chdir_err : string -> option error
}.

(** Directory [os.Chdir dir] moves to from [cur]. *)
Definition chdir_target (cur dir : string) : string :=
  if HasPrefix dir "/" then dir else cur ++ "/" ++ dir.

Section Code.

Variable env : Env.

(** ** [mavenExecRunner] *)

Definition RunExecutable (e : string) (p : list string) (w : World)
  : option error * World :=
  let '(out, err_out, err) := env_run env (cwd w) e p in
  let w := set_calls (calls w ++ [(cwd w, e, p)]) w in
  let w := write (runner_stdout w) out w in
  let w := write (runner_stderr w) err_out w in
  (err, w).

(** ** [mavenUtils] *)

Definition FileExists (path : string) (w : World) : bool * option error :=
  (existsb (fun '(d, f) => String.eqb d (cwd w) && String.eqb f path) (files w), None).

Definition DownloadFile (url filename : string) (w : World) : option error * World :=
  let w' := set_downloads (downloads w ++ [(cwd w, url, filename)]) w in
  match env_download env url filename with
  | Some e => (Some e, w')
  | None => (None, set_files (files w' ++ [(cwd w', filename)]) w')
  end.

Definition glob (pattern : string) (w : World) : list string * option error :=
  env_glob env (cwd w) pattern.

Definition getwd (w : World) : string * option error :=
  match env_getwd_err env with
  | Some e => ("", Some e)
  | None => (cwd w, None)
  end.

Definition chdir (dir : string) (w : World) : option error * World :=
  match env_chdir_err env (chdir_target (cwd w) dir) with
  | Some e => (Some e, w)
  | None => (None, set_cwd (chdir_target (cwd w) dir) w)
  end.

(** ** Settings download *)

Definition downloadSettingsFromURL (url filename : string) (w : World)
  : option error * World :=
  let '(exists_, _) := FileExists filename w in
  if exists_ then (None, w)
  else
    let '(err, w) := DownloadFile url filename w in
    match err with
    | Some e => (Some ("failed to download maven settings from URL '" ++ url
                       ++ "' to file '" ++ filename ++ "': " ++ e)%string, w)
    | None => (None, w)
    end.

Definition downloadSettingsIfURL (settingsFileOption settingsFile : string) (w : World)
  : string * option error * World :=
  let result := settingsFileOption in
  if HasPrefix settingsFileOption "http:" || HasPrefix settingsFileOption "https:" then
    let '(err, w) := downloadSettingsFromURL settingsFileOption settingsFile w in
    match err with
    | Some e => ("", Some e, w)
    | None => (settingsFile, None, w)
    end
  else (result, None, w).

Definition slf4jWarn : string :=
  "-Dorg.slf4j.simpleLogger.log.org.apache.maven.cli.transfer.Slf4jMavenTransferListener=warn".

Definition getParametersFromOptions (options : ExecuteOptions) (w : World)
  : list string * option error * World :=
  let parameters : list string := [] in
  let '(parameters, err, w) :=
    if negb (String.eqb (GlobalSettingsFile options) "") then
      let '(globalSettingsFileName, err, w) :=
        downloadSettingsIfURL (GlobalSettingsFile options)
          ".pipeline/mavenGlobalSettings.xml" w in
      match err with
      | Some e => ([], Some e, w)
      | None => (parameters ++ ["--global-settings"; globalSettingsFileName], None, w)
      end
    else (parameters, None, w) in
  match err with
  | Some e => ([], Some e, w)
  | None =>
  let '(parameters, err, w) :=
    if negb (String.eqb (ProjectSettingsFile options) "") then
      let '(projectSettingsFileName, err, w) :=
        downloadSettingsIfURL (ProjectSettingsFile options)
          ".pipeline/mavenProjectSettings.xml" w in
      match err with
      | Some e => ([], Some e, w)
      | None => (parameters ++ ["--settings"; projectSettingsFileName], None, w)
      end
    else (parameters, None, w) in
  match err with
  | Some e => ([], Some e, w)
  | None =>
  let parameters :=
    if negb (String.eqb (M2Path options) "")
    then parameters ++ ["-Dmaven.repo.local=" ++ M2Path options]%string
    else parameters in
  let parameters :=
    if negb (String.eqb (PomPath options) "")
    then parameters ++ ["--file"; PomPath options]
    else parameters in
  let parameters := parameters ++ Flags options in
  let parameters := parameters ++ Defines options in
  let parameters :=
    if negb (LogSuccessfulMavenTransfers options)
    then parameters ++ [slf4jWarn]
    else parameters in
  let parameters := parameters ++ ["--batch-mode"] in
  let parameters := parameters ++ Goals options in
  (parameters, None, w)
  end end.

(** ** Running Maven *)

Definition mavenExecutable : string := "mvn".

(** Go's [%s] rendering of a [[]string]: ["[a b c]"]. *)
Definition fmt_list (l : list string) : string :=
  "[" ++ String.concat " " l ++ "]".

(** [evaluateStdOut]: the [*bytes.Buffer] ([None] for nil, [Some tt]
    for the freshly allocated buffer, held in [stdout_buf]) and the
    writer for the runner's stdout. *)
Definition evaluateStdOut (options : ExecuteOptions) (w : World)
  : option unit * Writer * World :=
  let stdOutBuf : option unit := None in
  let stdOut := LogW in
  if ReturnStdout options then
    let w := set_stdout_buf "" w in
    (Some tt, MultiW stdOut BufW, w)
  else (stdOutBuf, stdOut, w).

Definition Execute (options : ExecuteOptions) (w : World)
  : string * option error * World :=
  let '(stdOutBuf, stdOut, w) := evaluateStdOut options w in
  let w := set_runner_stdout stdOut w in
  let w := set_runner_stderr LogW w in
  let '(parameters, err, w) := getParametersFromOptions options w in
  match err with
  | Some e => ("", Some ("failed to construct parameters from options: " ++ e)%string, w)
  | None =>
    let '(err, w) := RunExecutable mavenExecutable parameters w in
    match err with
    | Some e =>
        let commandLine := mavenExecutable :: parameters in
        ("", Some ("failed to run executable, command: '" ++ fmt_list commandLine
                   ++ "', error: " ++ e)%string, w)
    | None =>
        match stdOutBuf with
        | None => ("", None, w)
        | Some _ => (stdout_buf w, None, w)
        end
    end
  end.

Definition Evaluate (options : EvaluateOptions) (expression : string) (w : World)
  : string * option error * World :=
  let expressionDefine := ("-Dexpression=" ++ expression)%string in
  let executeOptions := {|
    PomPath := EvalOpts.PomPath options;
    M2Path := EvalOpts.M2Path options;
    ProjectSettingsFile := EvalOpts.ProjectSettingsFile options;
    GlobalSettingsFile := EvalOpts.GlobalSettingsFile options;
    Goals := ["org.apache.maven.plugins:maven-help-plugin:3.1.0:evaluate"];
    Defines := [expressionDefine; "-DforceStdout"; "-q"];
    Flags := [];
    LogSuccessfulMavenTransfers := false;
    ReturnStdout := true |} in
  let '(value, err, w) := Execute executeOptions w in
  match err with
  | Some e => ("", Some e, w)
  | None =>
    if HasPrefix value "null object or invalid expression" then
      ("", Some ("expression '" ++ expression ++ "' in file '"
                 ++ EvalOpts.PomPath options ++ "' could not be resolved")%string, w)
    else (value, None, w)
  end.

Definition InstallFile (file pomFile m2Path : string) (w : World)
  : option error * World :=
  if Nat.eqb (String.length pomFile) 0 then (Some "pomFile can't be empty", w)
  else
  let defines : list string := [] in
  let defines :=
    if Nat.ltb 0 (String.length file) then
      let defines := defines ++ ["-Dfile=" ++ file]%string in
      let defines :=
        if Contains file ".jar" then defines ++ ["-Dpackaging=jar"] else defines in
      if Contains file "-classes" then defines ++ ["-Dclassifier=classes"] else defines
    else defines ++ ["-Dfile=" ++ pomFile]%string in
  let defines := defines ++ ["-DpomFile=" ++ pomFile]%string in
  let mavenOptionsInstall := {|
    Goals := ["install:install-file"];
    Defines := defines;
    PomPath := pomFile;
    M2Path := m2Path;
    ProjectSettingsFile := "";
    GlobalSettingsFile := "";
    Flags := [];
    LogSuccessfulMavenTransfers := false;
    ReturnStdout := false |} in
  let '(_, err, w) := Execute mavenOptionsInstall w in
  match err with
  | Some e => (Some ("failed to install maven artifacts: " ++ e)%string, w)
  | None => (None, w)
  end.

Definition jarFile (finalName : string) : string := "target/" ++ finalName ++ ".jar".
Definition classesJarFile (finalName : string) : string :=
  "target/" ++ finalName ++ "-classes.jar".
Definition warFile (finalName : string) : string := "target/" ++ finalName ++ ".war".

Definition flattenPom (w : World) : option error * World :=
  let mavenOptionsFlatten := {|
    Goals := ["flatten:flatten"];
    Defines := ["-Dflatten.mode=resolveCiFriendliesOnly"];
    PomPath := "pom.xml";
    M2Path := "";
    ProjectSettingsFile := "";
    GlobalSettingsFile := "";
    Flags := [];
    LogSuccessfulMavenTransfers := false;
    ReturnStdout := false |} in
  let '(_, err, w) := Execute mavenOptionsFlatten w in
  (err, w).

Definition installJarWarArtifacts (options : EvaluateOptions) (w : World)
  : option error * World :=
  let '(finalName, err, w) := Evaluate options "project.build.finalName" w in
  match err with
  | Some e => (Some e, w)
  | None =>
  if String.eqb finalName "" then
    let '(err, w) := InstallFile "" "pom.xml" (EvalOpts.M2Path options) w in
    match err with
    | Some e => (Some e, w)
    | None => (None, w)
    end
  else
  let '(jarExists, _) := FileExists (jarFile finalName) w in
  let '(warExists, _) := FileExists (warFile finalName) w in
  let '(classesJarExists, _) := FileExists (classesJarFile finalName) w in
  let '(err, w) :=
    if jarExists then InstallFile (jarFile finalName) "pom.xml" (EvalOpts.M2Path options) w
    else (None, w) in
  match err with
  | Some e => (Some e, w)
  | None =>
  let '(err, w) :=
    if warExists then InstallFile (warFile finalName) "pom.xml" (EvalOpts.M2Path options) w
    else (None, w) in
  match err with
  | Some e => (Some e, w)
  | None =>
  let '(err, w) :=
    if classesJarExists
    then InstallFile (classesJarFile finalName) "pom.xml" (EvalOpts.M2Path options) w
    else (None, w) in
  match err with
  | Some e => (Some e, w)
  | None => (None, w)
  end end end end.

(** The [for _, pomFile := range pomFiles] loop of [doInstallMavenArtifacts]
    (the [log.Entry().Info] line is not modelled). *)
Fixpoint installModules (options : EvaluateOptions) (oldWorkingDirectory : string)
  (pomFiles : list string) (w : World) : option error * World :=
  match pomFiles with
  | [] => (None, w)
  | pomFile :: pomFiles' =>
    let dir := path_Dir pomFile in
    let '(err, w) := chdir dir w in
    match err with
    | Some e => (Some e, w)
    | None =>
    let '(packaging, err, w) := Evaluate options "project.packaging" w in
    match err with
    | Some e => (Some e, w)
    | None =>
    let '(err, w) :=
      if String.eqb packaging "pom"
      then InstallFile "" "pom.xml" (EvalOpts.M2Path options) w
      else installJarWarArtifacts options w in
    match err with
    | Some e => (Some e, w)
    | None =>
    let '(err, w) := chdir oldWorkingDirectory w in
    match err with
    | Some e => (Some e, w)
    | None => installModules options oldWorkingDirectory pomFiles' w
    end end end end
  end.

Definition doInstallMavenArtifacts (options : EvaluateOptions) (w : World)
  : option error * World :=
  let '(err, w) := flattenPom w in
  match err with
  | Some e => (Some e, w)
  | None =>
  let '(pomFiles, err) := glob (filepath_Join "**" "pom.xml") w in
  match err with
  | Some e => (Some e, w)
  | None =>
  let '(oldWorkingDirectory, err) := getwd w in
  match err with
  | Some e => (Some e, w)
  | None =>
  (* Set pom path fix here because we will change into the respective pom's directory *)
  let options := {|
    EvalOpts.PomPath := "pom.xml";
    EvalOpts.ProjectSettingsFile := EvalOpts.ProjectSettingsFile options;
    EvalOpts.GlobalSettingsFile := EvalOpts.GlobalSettingsFile options;
    EvalOpts.M2Path := EvalOpts.M2Path options |} in
  installModules options oldWorkingDirectory pomFiles w
  end end end.

Definition getTestModulesExcludes (w : World) : list string :=
  let excludes : list string := [] in
  let '(exists_, _) := FileExists "unit-tests/pom.xml" w in
  let excludes := if exists_ then excludes ++ ["-pl"; "!unit-tests"] else excludes in
  let '(exists_, _) := FileExists "integration-tests/pom.xml" w in
  let excludes := if exists_ then excludes ++ ["-pl"; "!integration-tests"] else excludes in
  excludes.

End Code.

End Maven.

Module Cmd.

Record nexusUploadOptions := {
  Version : string;
  Url : string;
  Repository : string;
  GroupID : string;
  ArtifactID : string;
  GlobalSettingsFile : string;
  M2Path : string;
  AdditionalClassifiers : string;
  User : string;
  Password : string
}.

(** The fields of [nexusUploadOptions] a flag can be bound to
    ([&stepConfig.Version], ...). *)
Inductive nexusUploadField :=
| fVersion | fUrl | fRepository | fGroupID | fArtifactID
| fGlobalSettingsFile | fM2Path | fAdditionalClassifiers | fUser | fPassword.

(** The [json] struct tag of each field. *)
Definition json_tag (f : nexusUploadField) : string :=
  match f with
  | fVersion => "version"
  | fUrl => "url"
  | fRepository => "repository"
  | fGroupID => "groupId"
  | fArtifactID => "artifactId"
  | fGlobalSettingsFile => "globalSettingsFile"
  | fM2Path => "m2Path"
  | fAdditionalClassifiers => "additionalClassifiers"
  | fUser => "user"
  | fPassword => "password"
  end.

Definition get_field (o : nexusUploadOptions) (f : nexusUploadField) : string :=
  match f with
  | fVersion => Version o
  | fUrl => Url o
  | fRepository => Repository o
  | fGroupID => GroupID o
  | fArtifactID => ArtifactID o
  | fGlobalSettingsFile => GlobalSettingsFile o
  | fM2Path => M2Path o
  | fAdditionalClassifiers => AdditionalClassifiers o
  | fUser => User o
  | fPassword => Password o
  end.

(** A string flag registered with [cmd.Flags().StringVar]. *)
Record StringFlag := {
  flag_name : string;
  flag_target : nexusUploadField;
  flag_default : string;
  flag_usage : string
}.

(** The part of a [cobra.Command] the generated code touches: its flag set
    and the flags annotated as required. *)
Record Command := {
  cmd_flags : list StringFlag;
  cmd_required : list string
}.

Definition StringVar (p : nexusUploadField) (name value usage : string) (cmd : Command)
  : Command :=
  {| cmd_flags := cmd_flags cmd ++ [{| flag_name := name; flag_target := p;
                                       flag_default := value; flag_usage := usage |}];
     cmd_required := cmd_required cmd |}.

(** [cmd.MarkFlagRequired name]: fails when no flag of that name exists. *)
Definition MarkFlagRequired (name : string) (cmd : Command) : option string * Command :=
  if existsb (fun f => String.eqb (flag_name f) name) (cmd_flags cmd)
  then (None, {| cmd_flags := cmd_flags cmd; cmd_required := cmd_required cmd ++ [name] |})
  else (Some ("no such flag -" ++ name)%string, cmd).

Section Generated.

(** [os.Getenv] *)
Variable Getenv : string -> string.

Definition addNexusUploadFlags (cmd : Command) : Command :=
  let cmd := StringVar fVersion "version" "nexus3" "The Nexus Repository Manager version. Currently supported are 'nexus2' and 'nexus3'." cmd in
  let cmd := StringVar fUrl "url" (Getenv "PIPER_url") "URL of the nexus. The scheme part of the URL will not be considered, because only http is supported." cmd in
  let cmd := StringVar fRepository "repository" (Getenv "PIPER_repository") "Name of the nexus repository." cmd in
  let cmd := StringVar fGroupID "groupId" (Getenv "PIPER_groupId") "Group ID of the artifacts. Only used in MTA projects, ignored for Maven." cmd in
  let cmd := StringVar fArtifactID "artifactId" (Getenv "PIPER_artifactId") "The artifact ID used for both the .mtar and mta.yaml files deployed for MTA projects, ignored for Maven." cmd in
  let cmd := StringVar fGlobalSettingsFile "globalSettingsFile" (Getenv "PIPER_globalSettingsFile") "Path to the mvn settings file that should be used as global settings file." cmd in
  let cmd := StringVar fM2Path "m2Path" (Getenv "PIPER_m2Path") "The path to the local .m2 directory, only used for Maven projects." cmd in
  let cmd := StringVar fAdditionalClassifiers "additionalClassifiers" (Getenv "PIPER_additionalClassifiers") "List of additional classifiers that should be deployed to nexus. Each item is a map of a type and a classifier name." cmd in
  let cmd := StringVar fUser "user" (Getenv "PIPER_user") "User" cmd in
  let cmd := StringVar fPassword "password" (Getenv "PIPER_password") "Password" cmd in
  let '(_, cmd) := MarkFlagRequired "url" cmd in
  let '(_, cmd) := MarkFlagRequired "repository" cmd in
  cmd.

End Generated.

(** ** Step metadata

    The parts of [config.StepData] that [nexusUploadMetadata] fills in;
    [Spec.Inputs.Parameters] is held directly in [Parameters]. Every
    parameter's [ResourceRef] is the empty list and is not modelled. *)
Record Alias := {
  alias_Name : string;
  alias_Deprecated : bool
}.

Record StepParameters := {
  param_Name : string;
  param_Scope : list string;
  param_Type : string;
  param_Mandatory : bool;
  param_Aliases : list Alias
}.

Record StepMetadata := {
  md_Name : string;
  md_Aliases : list Alias
}.

Record StepData := {
  Metadata : StepMetadata;
  Parameters : list StepParameters
}.

Definition nexusUploadMetadata : StepData := {|
  Metadata := {| md_Name := "nexusUpload";
                 md_Aliases := [{| alias_Name := "mavenExecute"; alias_Deprecated := false |}] |};
  Parameters := [
    {| param_Name := "version"; param_Scope := ["PARAMETERS"; "STAGES"; "STEPS"];
       param_Type := "string"; param_Mandatory := false;
       param_Aliases := [{| alias_Name := "nexus/version"; alias_Deprecated := false |}] |};
    {| param_Name := "url"; param_Scope := ["PARAMETERS"; "STAGES"; "STEPS"];
       param_Type := "string"; param_Mandatory := true;
       param_Aliases := [{| alias_Name := "nexus/url"; alias_Deprecated := false |}] |};
    {| param_Name := "repository"; param_Scope := ["PARAMETERS"; "STAGES"; "STEPS"];
       param_Type := "string"; param_Mandatory := true;
       param_Aliases := [{| alias_Name := "nexus/repository"; alias_Deprecated := false |}] |};
    {| param_Name := "groupId"; param_Scope := ["PARAMETERS"];
       param_Type := "string"; param_Mandatory := false;
       param_Aliases := [{| alias_Name := "nexus/groupId"; alias_Deprecated := false |}] |};
    {| param_Name := "artifactId"; param_Scope := ["PARAMETERS"];
       param_Type := "string"; param_Mandatory := false;
       param_Aliases := [] |};
    {| param_Name := "globalSettingsFile"; param_Scope := ["GENERAL"; "PARAMETERS"; "STAGES"; "STEPS"];
       param_Type := "string"; param_Mandatory := false;
       param_Aliases := [{| alias_Name := "maven/globalSettingsFile"; alias_Deprecated := false |}] |};
    {| param_Name := "m2Path"; param_Scope := ["GENERAL"; "PARAMETERS"; "STAGES"; "STEPS"];
       param_Type := "string"; param_Mandatory := false;
       param_Aliases := [{| alias_Name := "maven/m2Path"; alias_Deprecated := false |}] |};
    {| param_Name := "additionalClassifiers"; param_Scope := ["PARAMETERS"; "STAGES"; "STEPS"];
       param_Type := "string"; param_Mandatory := false;
       param_Aliases := [{| alias_Name := "nexus/additionalClassifiers"; alias_Deprecated := false |}] |};
    {| param_Name := "user"; param_Scope := ["PARAMETERS"];
       param_Type := "string"; param_Mandatory := false;
       param_Aliases := [] |};
    {| param_Name := "password"; param_Scope := ["PARAMETERS"];
       param_Type := "string"; param_Mandatory := false;
       param_Aliases := [] |}
  ] |}.

(** ** The [Run] function of [NexusUploadCommand]

    [telemetry.CustomData] with the two fields the command sets. *)
Record CustomData := {
  ErrorCode : string;
  Duration : string
}.

Definition set_ErrorCode (c : string) (d : CustomData) : CustomData :=
  {| ErrorCode := c; Duration := Duration d |}.
Definition set_Duration (t : string) (d : CustomData) : CustomData :=
  {| ErrorCode := ErrorCode d; Duration := t |}.

(** How the call [nexusUpload(stepConfig, &telemetryData)] ends: it returns,
    it panics (deferred calls run), or it logs a fatal error (the handlers
    registered with [log.DeferExitHandler] run, then the process exits and
    deferred calls do not run). *)
Inductive Outcome := Returned | Panicked | ExitedFatal.

(** The telemetry calls the command makes. *)
Inductive TelemetryEvent :=
| Initialize (noTelemetry : bool) (stepName : string)
| Send (data : CustomData).

Section Run.

(** [GeneralConfig.NoTelemetry] *)
Variable NoTelemetry : bool.
(** [fmt.Sprintf("%v", time.Since(startTime).Milliseconds())] *)
Variable elapsed : string.
(** The step implementation, which gets a pointer to [telemetryData] and
    may update it. *)
Variable nexusUpload : nexusUploadOptions -> CustomData -> Outcome * CustomData.

Definition Run (stepConfig : nexusUploadOptions) : list TelemetryEvent * Outcome :=
  let telemetryData := {| ErrorCode := ""; Duration := "" |} in
  let telemetryData := set_ErrorCode "1" telemetryData in
  (* handler sets the duration on the shared record and sends it *)
  let handler (d : CustomData) := Send (set_Duration elapsed d) in
  (* log.DeferExitHandler(handler); defer handler() *)
  let events := [Initialize NoTelemetry "nexusUpload"] in
  let '(outcome, telemetryData) := nexusUpload stepConfig telemetryData in
  match outcome with
  | Returned =>
      let telemetryData := set_ErrorCode "0" telemetryData in
      (events ++ [handler telemetryData], Returned)
  | Panicked => (events ++ [handler telemetryData], Panicked)
  | ExitedFatal => (events ++ [handler telemetryData], ExitedFatal)
  end.

End Run.

End Cmd.

(** * Reference descriptions *)

Module MavenSpec.
Import Maven.
Import EvalOpts (EvaluateOptions).

(** A settings option is a URL when it starts with [http:] or [https:]. *)
Definition isURL (s : string) : bool := HasPrefix s "http:" || HasPrefix s "https:".

(** The settings file handed to Maven for the option [opt] whose download
    location is [path]. *)
Definition settingsArg (opt path : string) : string :=
  if isURL opt then path else opt.

(** The Maven parameter list, section by section, in the documented order. *)
Definition expectedParameters (o : ExecuteOptions) : list string :=
  (if String.eqb (GlobalSettingsFile o) "" then []
   else ["--global-settings";
         settingsArg (GlobalSettingsFile o) ".pipeline/mavenGlobalSettings.xml"])
  ++ (if String.eqb (ProjectSettingsFile o) "" then []
      else ["--settings";
            settingsArg (ProjectSettingsFile o) ".pipeline/mavenProjectSettings.xml"])
  ++ (if String.eqb (M2Path o) "" then [] else ["-Dmaven.repo.local=" ++ M2Path o]%string)
  ++ (if String.eqb (PomPath o) "" then [] else ["--file"; PomPath o])
  ++ Flags o
  ++ Defines o
  ++ (if LogSuccessfulMavenTransfers o then [] else [slf4jWarn])
  ++ ["--batch-mode"]
  ++ Goals o.

Definition helpEvaluateGoal : string :=
  "org.apache.maven.plugins:maven-help-plugin:3.1.0:evaluate".

(** The options [Evaluate] is documented to run [Execute] with. *)
Definition helpEvaluateOptions (o : EvaluateOptions) (expression : string)
  : ExecuteOptions := {|
  Goals := [helpEvaluateGoal];
  Defines := ["-Dexpression=" ++ expression; "-DforceStdout"; "-q"]%string;
  ReturnStdout := true;
  PomPath := EvalOpts.PomPath o;
  M2Path := EvalOpts.M2Path o;
  ProjectSettingsFile := EvalOpts.ProjectSettingsFile o;
  GlobalSettingsFile := EvalOpts.GlobalSettingsFile o;
  Flags := [];
  LogSuccessfulMavenTransfers := false |}.

(** The options [doInstallMavenArtifacts] evaluates each module with. *)
Definition moduleOptions (o : EvaluateOptions) : EvaluateOptions := {|
  EvalOpts.PomPath := "pom.xml";
  EvalOpts.ProjectSettingsFile := EvalOpts.ProjectSettingsFile o;
  EvalOpts.GlobalSettingsFile := EvalOpts.GlobalSettingsFile o;
  EvalOpts.M2Path := EvalOpts.M2Path o |}.

Definition nullPrefix : string := "null object or invalid expression".

(** The defines [InstallFile] passes, from its documentation. *)
Definition installDefines (file pomFile : string) : list string :=
  (if String.eqb file "" then ["-Dfile=" ++ pomFile]%string
   else ["-Dfile=" ++ file]%string
        ++ (if Contains file ".jar" then ["-Dpackaging=jar"] else [])
        ++ (if Contains file "-classes" then ["-Dclassifier=classes"] else []))
  ++ ["-DpomFile=" ++ pomFile]%string.

(** The full parameter list of an [install:install-file] run. *)
Definition installParameters (file pomFile m2Path : string) : list string :=
  (if String.eqb m2Path "" then [] else ["-Dmaven.repo.local=" ++ m2Path]%string)
  ++ ["--file"; pomFile]
  ++ installDefines file pomFile
  ++ [slf4jWarn; "--batch-mode"; "install:install-file"].

Definition flattenParameters : list string :=
  ["--file"; "pom.xml"; "-Dflatten.mode=resolveCiFriendliesOnly"; slf4jWarn;
   "--batch-mode"; "flatten:flatten"].

(** A file is a downloaded settings file when it lives under [.pipeline/]. *)
Definition pipelineFile (df : string * string) : Prop := HasPrefix (snd df) ".pipeline/" = true.

(** [w'] differs from [w] only by downloaded settings files (and the
    download trace). *)
Definition settingsOnly (w w' : World) : Prop :=
  cwd w' = cwd w /\ calls w' = calls w /\ log_out w' = log_out w /\
  stdout_buf w' = stdout_buf w /\ runner_stdout w' = runner_stdout w /\
  runner_stderr w' = runner_stderr w /\
  exists fs, files w' = files w ++ fs /\ Forall pipelineFile fs.

(** [w'] is in the working directory of [w] and has at most gained
    downloaded settings files. *)
Definition keepsDir (w w' : World) : Prop :=
  cwd w' = cwd w /\ exists fs, files w' = files w ++ fs /\ Forall pipelineFile fs.

(** [FileExists p] as seen from directory [d] with the files [fs]. *)
Definition existsIn (fs : list (string * string)) (d p : string) : bool :=
  existsb (fun '(d', f) => String.eqb d' d && String.eqb f p) fs.

(** What Maven prints on stdout when run in [d] with [ps]. *)
Definition runOut (env : Env) (d : string) (ps : list string) : string :=
  fst (fst (env_run env d "mvn" ps)).

Definition evalParams (o : EvaluateOptions) (expression : string) : list string :=
  expectedParameters (helpEvaluateOptions o expression).

(** The Maven runs for a module that is not packaged as [pom], in its
    directory [d]: evaluate the final name; with an empty final name install
    the pom only, else install each of the jar, war and classes jar that
    exists. *)
Definition artifactCalls (env : Env) (fs : list (string * string))
  (o : EvaluateOptions) (d : string) : list (string * string * list string) :=
  let fa := evalParams o "project.build.finalName" in
  let fn := runOut env d fa in
  let install file := (d, "mvn", installParameters file "pom.xml" (EvalOpts.M2Path o)) in
  (d, "mvn", fa) ::
  if String.eqb fn "" then [install ""]
  else (if existsIn fs d (jarFile fn) then [install (jarFile fn)] else [])
       ++ (if existsIn fs d (warFile fn) then [install (warFile fn)] else [])
       ++ (if existsIn fs d (classesJarFile fn) then [install (classesJarFile fn)] else []).

(** The Maven runs for the module of [pomFile], found from [old]. *)
Definition moduleCalls (env : Env) (fs : list (string * string))
  (o : EvaluateOptions) (old pomFile : string) : list (string * string * list string) :=
  let d := chdir_target old (path_Dir pomFile) in
  let pa := evalParams o "project.packaging" in
  (d, "mvn", pa) ::
  if String.eqb (runOut env d pa) "pom"
  then [(d, "mvn", installParameters "" "pom.xml" (EvalOpts.M2Path o))]
  else artifactCalls env fs o d.

(** All Maven runs of a successful [doInstallMavenArtifacts] from [w]:
    the flatten run, then the modules in glob order. *)
Definition installCalls (env : Env) (o : EvaluateOptions) (w : World)
  : list (string * string * list string) :=
  let o' := {| EvalOpts.PomPath := "pom.xml";
               EvalOpts.ProjectSettingsFile := EvalOpts.ProjectSettingsFile o;
               EvalOpts.GlobalSettingsFile := EvalOpts.GlobalSettingsFile o;
               EvalOpts.M2Path := EvalOpts.M2Path o |} in
  (cwd w, "mvn", flattenParameters)
  :: concat (map (moduleCalls env (files w) o' (cwd w))
                 (fst (env_glob env (cwd w) (filepath_Join "**" "pom.xml")))).

(** The pom files [doInstallMavenArtifacts] finds from [w]. *)
Definition globbedPoms (env : Env) (w : World) : list string :=
  fst (env_glob env (cwd w) (filepath_Join "**" "pom.xml")).

(** The directory of the module of [pomFile], found from [old]. *)
Definition moduleDir (old pomFile : string) : string := chdir_target old (path_Dir pomFile).

(** A Maven run made in the module directory [d]: an evaluation of the
    packaging or of the final name, or an [install:install-file] with
    [pom.xml] and some file. *)
Definition moduleRun (o : EvaluateOptions) (d : string)
  (c : string * string * list string) : Prop :=
  exists ps, c = (d, "mvn", ps) /\
    (ps = evalParams o "project.packaging" \/ ps = evalParams o "project.build.finalName" \/
     exists file, ps = installParameters file "pom.xml" (EvalOpts.M2Path o)).

(** The settings download [downloadSettingsIfURL] performs: one for a URL
    whose target file is not yet in the working directory, none otherwise. *)
Definition dlOf (opt path : string) (w : World) : list (string * string * string) :=
  if isURL opt && negb (existsIn (files w) (cwd w) path) then [(cwd w, opt, path)] else [].

(** The error text [downloadSettingsFromURL] wraps around a failed download. *)
Definition settingsError (url filename e : string) : string :=
  "failed to download maven settings from URL '" ++ url ++ "' to file '" ++ filename
  ++ "': " ++ e.

(** A download of the global or the project settings URL of [o] into its
    [.pipeline] file, from directory [d]. *)
Definition settingsDownload (o : ExecuteOptions) (d : string) (x : string * string * string) : Prop :=
  exists u f, x = (d, u, f) /\ isURL u = true /\
    (u = GlobalSettingsFile o /\ f = ".pipeline/mavenGlobalSettings.xml" \/
     u = ProjectSettingsFile o /\ f = ".pipeline/mavenProjectSettings.xml").

(** [w'] extends the Maven calls of [w] with calls that all satisfy [P]. *)
Definition addsCalls (P : string * string * list string -> Prop) (w w' : World) : Prop :=
  exists cs, calls w' = calls w ++ cs /\ Forall P cs.

(** A Maven call in batch mode, with the transfer-log define, on [pom.xml]. *)
Definition batchPomRun (c : string * string * list string) : Prop :=
  snd (fst c) = "mvn" /\ In "--batch-mode" (snd c) /\ In slf4jWarn (snd c) /\
  exists pre post, snd c = pre ++ "--file" :: "pom.xml" :: post.

End MavenSpec.

(** * Concrete worlds used to exercise the model *)

Module Samples.
Import Maven.
Import EvalOpts (EvaluateOptions).

Definition emptyWorld (d : string) (fs : list (string * string)) : World := {|
  cwd := d; files := fs; downloads := []; calls := []; log_out := "";
  stdout_buf := ""; runner_stdout := LogW; runner_stderr := LogW |}.

(** A Maven that answers the help plugin with [packaging] for
    [project.packaging] and [finalName] for [project.build.finalName], and
    prints nothing otherwise; all downloads, globs and directory changes
    succeed, and the glob finds the given pom files. *)
Definition sampleEnv (packaging finalName : string) (poms : list string) : Env := {|
  env_run := fun _ _ p =>
    if existsb (String.eqb "-Dexpression=project.packaging") p then (packaging, "", None)
    else if existsb (String.eqb "-Dexpression=project.build.finalName") p
    then (finalName, "", None)
    else ("", "", None);
  env_download := fun _ _ => None;
  env_glob := fun _ _ => (poms, None);
  env_getwd_err := None;
  env_chdir_err := fun _ => None |}.

Definition sampleOptions : ExecuteOptions := {|
  PomPath := "pom.xml";
  ProjectSettingsFile := "settings.xml";
  GlobalSettingsFile := "https://example.org/settings.xml";
  M2Path := ".m2";
  Goals := ["install"];
  Defines := ["-DskipTests"];
  Flags := ["-U"];
  LogSuccessfulMavenTransfers := false;
  ReturnStdout := true |}.

Definition sampleEvaluateOptions : EvaluateOptions := {|
  EvalOpts.PomPath := "pom.xml";
  EvalOpts.ProjectSettingsFile := "";
  EvalOpts.GlobalSettingsFile := "";
  EvalOpts.M2Path := "" |}.

(** Two modules, the second with a jar on disk. *)
Definition twoModuleEnv : Env := sampleEnv "jar" "app" ["pom.xml"; "sub/pom.xml"].
Definition twoModuleWorld : World := emptyWorld "/w" [("/w/sub", "target/app.jar")].

(** One module whose final name evaluates to the empty string, with
    [target/.jar] on disk. *)
Definition emptyFinalNameEnv : Env := sampleEnv "jar" "" ["pom.xml"].
Definition jarOnDiskWorld : World := emptyWorld "/w" [("/w/.", "target/.jar")].

(** [sampleEnv] with every download failing. *)
Definition failingDownloadEnv : Env := {|
  env_run := env_run (sampleEnv "jar" "app" []);
  env_download := fun _ _ => Some "404 Not Found";
  env_glob := env_glob (sampleEnv "jar" "app" []);
  env_getwd_err := None;
  env_chdir_err := fun _ => None |}.

(** [twoModuleEnv] where Maven fails to evaluate the final name in [/w/sub]. *)
Definition subFailsEnv : Env := {|
  env_run := fun d exe p =>
    if String.eqb d "/w/sub" && existsb (String.eqb "-Dexpression=project.build.finalName") p
    then ("", "", Some "exit status 1")
    else env_run twoModuleEnv d exe p;
  env_download := fun _ _ => None;
  env_glob := env_glob twoModuleEnv;
  env_getwd_err := None;
  env_chdir_err := fun _ => None |}.

(** Runs used by the witnesses of the further properties. *)
Definition settingsRun : list string * option error * World :=
  getParametersFromOptions (sampleEnv "jar" "app" []) sampleOptions (emptyWorld "/w" []).
Definition failedSettingsRun : list string * option error * World :=
  getParametersFromOptions failingDownloadEnv sampleOptions (emptyWorld "/w" []).
Definition subFailsRun : option error * World :=
  doInstallMavenArtifacts subFailsEnv sampleEvaluateOptions twoModuleWorld.

End Samples.

(** * Proofs *)

Module Proofs.
Import Maven MavenSpec Samples.

(** Case analysis on the innermost [match] (or [if]) of the goal or of a
    hypothesis. *)
Ltac split_match :=
  match goal with
  | |- context [match ?x with _ => _ end] =>
      lazymatch x with match _ with _ => _ end => fail | _ => destruct x eqn:? end
  | H : context [match ?x with _ => _ end] |- _ =>
      lazymatch x with match _ with _ => _ end => fail | _ => destruct x eqn:? end
  end.

Lemma settingsOnly_refl w : settingsOnly w w.
Proof. repeat split; exists []; rewrite app_nil_r; auto. Qed.
Lemma settingsOnly_trans w1 w2 w3 :
  settingsOnly w1 w2 -> settingsOnly w2 w3 -> settingsOnly w1 w3.
Proof.
  intros (? & ? & ? & ? & ? & ? & fs1 & Hf1 & Hp1) (? & ? & ? & ? & ? & ? & fs2 & Hf2 & Hp2).
  repeat split; try congruence.
  exists (fs1 ++ fs2). rewrite Hf2, Hf1, app_assoc. split; [reflexivity|].
  apply Forall_app; auto.
Qed.
Lemma downloadSettingsIfURL_spec env opt path w v err w' :
  HasPrefix path ".pipeline/" = true ->
  downloadSettingsIfURL env opt path w = (v, err, w') ->
  settingsOnly w w' /\ (err = None -> v = settingsArg opt path).
Proof.
  destruct w as [c fs ds cs lo sb ro re].
  unfold downloadSettingsIfURL, settingsArg, isURL, downloadSettingsFromURL, FileExists, DownloadFile.
  cbn. intros Hp H.
  repeat (split_match; cbn in *); inversion H; subst; clear H;
  repeat split; cbn; try congruence;
  first [solve [exists []; rewrite app_nil_r; auto]
        | exists [(c, v)]; split; [reflexivity | repeat constructor; exact Hp]].
Qed.

Ltac dl_step :=
  match goal with
  | H : context [downloadSettingsIfURL ?env ?opt ?path ?w] |- _ =>
      let g := fresh "g" in let e := fresh "e" in let w1 := fresh "w" in
      let D := fresh "D" in let S := fresh "S" in let V := fresh "V" in
      destruct (downloadSettingsIfURL env opt path w) as [[g e] w1] eqn:D;
      apply downloadSettingsIfURL_spec in D as [S V]; [|reflexivity]
  end.
Lemma getParametersFromOptions_spec env o w ps err w' :
  getParametersFromOptions env o w = (ps, err, w') ->
  settingsOnly w w' /\ (err = None -> ps = expectedParameters o).
Proof.
  unfold getParametersFromOptions, expectedParameters. intros H.
  repeat (dl_step || split_match); cbn in *;
  repeat match goal with
         | H : (_, _, _) = (_, _, _) |- _ => inversion H; subst; clear H
         end;
  (split; [eauto using settingsOnly_trans, settingsOnly_refl | intros E; try discriminate]);
  repeat match goal with V : ?e = None -> _ = _, E : ?e = None |- _ => rewrite (V E) in *; clear V end;
  cbn; repeat rewrite <- app_assoc; cbn; reflexivity.
Qed.
Lemma downloadSettingsIfURL_frame env opt path w1 w2 :
  cwd w1 = cwd w2 -> files w1 = files w2 ->
  let '(v1, e1, w1') := downloadSettingsIfURL env opt path w1 in
  let '(v2, e2, w2') := downloadSettingsIfURL env opt path w2 in
  v1 = v2 /\ e1 = e2 /\ cwd w1' = cwd w2' /\ files w1' = files w2'.
Proof.
  destruct w1, w2; cbn; intros -> ->.
  unfold downloadSettingsIfURL, downloadSettingsFromURL, FileExists, DownloadFile; cbn.
  repeat split_match; cbn; auto.
Qed.
Lemma getParametersFromOptions_frame env o w1 w2 :
  cwd w1 = cwd w2 -> files w1 = files w2 ->
  fst (getParametersFromOptions env o w1) = fst (getParametersFromOptions env o w2).
Proof.
  destruct w1, w2; cbn; intros -> ->.
  unfold getParametersFromOptions, downloadSettingsIfURL, downloadSettingsFromURL,
    FileExists, DownloadFile.
  cbn -[HasPrefix String.eqb append].
  repeat (split_match; cbn -[HasPrefix String.eqb append]); reflexivity.
Qed.
Lemma write_frame o b w :
  cwd (write o b w) = cwd w /\ files (write o b w) = files w /\
  calls (write o b w) = calls w /\ runner_stdout (write o b w) = runner_stdout w /\
  runner_stderr (write o b w) = runner_stderr w.
Proof.
  revert w; induction o; intros w; cbn; auto.
  destruct (IHo1 w) as (? & ? & ? & ? & ?).
  destruct (IHo2 (write o1 b w)) as (? & ? & ? & ? & ?).
  repeat split; congruence.
Qed.
Lemma Execute_spec env o w v err w' :
  Execute env o w = (v, err, w') ->
  cwd w' = cwd w /\
  (exists fs, files w' = files w ++ fs /\ Forall pipelineFile fs) /\
  match fst (getParametersFromOptions env o w) with
  | (_, Some _) => calls w' = calls w /\ err <> None /\ v = ""
  | (ps, None) =>
      ps = expectedParameters o /\
      calls w' = calls w ++ [(cwd w, mavenExecutable, ps)] /\
      match env_run env (cwd w) mavenExecutable ps with
      | (_, _, Some _) => err <> None /\ v = ""
      | (out, eout, None) =>
          err = None /\ v = (if ReturnStdout o then out else "") /\
          log_out w' = ((log_out w ++ out) ++ eout)%string
      end
  end.
Proof.
  unfold Execute, evaluateStdOut. intros H.
  assert (Main : forall stdOutBuf stdOut w0,
    cwd w0 = cwd w -> files w0 = files w -> calls w0 = calls w -> log_out w0 = log_out w ->
    runner_stdout w0 = stdOut -> runner_stderr w0 = LogW ->
    (stdOutBuf = None /\ stdOut = LogW /\ ReturnStdout o = false \/
     stdOutBuf = Some tt /\ stdOut = MultiW LogW BufW /\ stdout_buf w0 = "" /\ ReturnStdout o = true) ->
    (match getParametersFromOptions env o w0 with
     | (parameters, Some e, w) =>
         ("", Some ("failed to construct parameters from options: " ++ e)%string, w)
     | (parameters, None, w) =>
         let '(err, w) := RunExecutable env mavenExecutable parameters w in
         match err with
         | Some e =>
             let commandLine := mavenExecutable :: parameters in
             ("", Some ("failed to run executable, command: '" ++ fmt_list commandLine
                        ++ "', error: " ++ e)%string, w)
         | None =>
             match stdOutBuf with
             | None => ("", None, w)
             | Some _ => (stdout_buf w, None, w)
             end
         end
     end) = (v, err, w') ->
    cwd w' = cwd w /\
    (exists fs, files w' = files w ++ fs /\ Forall pipelineFile fs) /\
    match fst (getParametersFromOptions env o w) with
    | (_, Some _) => calls w' = calls w /\ err <> None /\ v = ""
    | (ps, None) =>
        ps = expectedParameters o /\
        calls w' = calls w ++ [(cwd w, mavenExecutable, ps)] /\
        match env_run env (cwd w) mavenExecutable ps with
        | (_, _, Some _) => err <> None /\ v = ""
        | (out, eout, None) =>
            err = None /\ v = (if ReturnStdout o then out else "") /\
            log_out w' = ((log_out w ++ out) ++ eout)%string
        end
    end).
  { clear H. intros stdOutBuf stdOut w0 Hc0 Hf0 Hk0 Hl0 Hro0 Hre0 Hmode Hx.
    rewrite <- (getParametersFromOptions_frame env o w0 w Hc0 Hf0).
    destruct (getParametersFromOptions env o w0) as [[ps e] w1] eqn:G.
    apply getParametersFromOptions_spec in G
      as [(Hc & Hcalls & Hlog & Hbuf & Hro & Hre & fs & Hfs & Hpf) Hps].
    destruct e as [e|]; cbn in Hx |- *.
    - injection Hx as <- <- <-. repeat split; try congruence.
      exists fs; rewrite Hfs, Hf0; auto.
    - rewrite Hps by reflexivity. rewrite Hps in Hx by reflexivity.
      unfold RunExecutable in Hx. rewrite Hc, Hc0 in Hx.
      destruct (env_run env (cwd w) mavenExecutable (expectedParameters o))
        as [[out eout] rerr] eqn:R.
      cbn in Hx.
      rewrite (proj2 (proj2 (proj2 (proj2 (write_frame _ _ _))))) in Hx; cbn in Hx.
      rewrite Hre, Hre0, Hro, Hro0 in Hx.
      destruct Hmode as [(-> & -> & Hm) | (-> & -> & Hb & Hm)];
        rewrite Hm; destruct rerr as [e|]; cbn in Hx; injection Hx as <- <- <-; cbn;
        (repeat split; try congruence; [exists fs; rewrite Hfs, Hf0; auto | ..]);
        try discriminate; try congruence.
      all: rewrite ?Hlog, ?Hl0, ?Hbuf, ?Hb; auto. }
  destruct (ReturnStdout o) eqn:Hm; cbn in H.
  - apply (Main (Some tt) (MultiW LogW BufW)
             (set_runner_stderr LogW (set_runner_stdout (MultiW LogW BufW) (set_stdout_buf "" w))));
      auto; right; auto.
  - apply (Main None LogW (set_runner_stderr LogW (set_runner_stdout LogW w))); auto.
Qed.
Lemma Evaluate_unfold env o e w :
  Evaluate env o e w =
  let '(value, err, w) := Execute env (helpEvaluateOptions o e) w in
  match err with
  | Some e' => ("", Some e', w)
  | None =>
    if HasPrefix value nullPrefix then
      ("", Some ("expression '" ++ e ++ "' in file '"
                 ++ EvalOpts.PomPath o ++ "' could not be resolved")%string, w)
    else (value, None, w)
  end.
Proof. reflexivity. Qed.
Lemma getParametersFromOptions_no_settings env o w :
  GlobalSettingsFile o = "" -> ProjectSettingsFile o = "" ->
  getParametersFromOptions env o w = (expectedParameters o, None, w).
Proof.
  intros Hg Hp. unfold getParametersFromOptions, expectedParameters.
  rewrite Hg, Hp. cbn.
  destruct (String.eqb (M2Path o) ""), (String.eqb (PomPath o) ""),
    (LogSuccessfulMavenTransfers o); cbn; repeat rewrite <- app_assoc; reflexivity.
Qed.
Lemma keepsDir_refl w : keepsDir w w.
Proof. split; [reflexivity | exists []; rewrite app_nil_r; auto]. Qed.

Lemma keepsDir_trans w1 w2 w3 : keepsDir w1 w2 -> keepsDir w2 w3 -> keepsDir w1 w3.
Proof.
  intros (Hc1 & fs1 & Hf1 & Hp1) (Hc2 & fs2 & Hf2 & Hp2).
  split; [congruence|]. exists (fs1 ++ fs2).
  rewrite Hf2, Hf1, app_assoc. split; [reflexivity | apply Forall_app; auto].
Qed.

Lemma pipeline_not_target f x :
  HasPrefix f ".pipeline/" = true -> String.eqb f ("target/" ++ x) = false.
Proof.
  intros H. destruct f as [|c f]; [discriminate|].
  change ((Ascii.eqb "." c && HasPrefix f "pipeline/")%char = true) in H.
  apply andb_prop in H as [E _]. apply Ascii.eqb_eq in E. subst c. reflexivity.
Qed.

Lemma existsIn_pipeline fs extra d x :
  Forall pipelineFile extra ->
  existsIn (fs ++ extra) d ("target/" ++ x) = existsIn fs d ("target/" ++ x).
Proof.
  intros Hp. unfold existsIn. rewrite existsb_app.
  replace (existsb _ extra) with false; [apply orb_false_r|].
  induction Hp as [|[d' f] extra Hf _ IH]; cbn [existsb]; auto.
  unfold pipelineFile in Hf; cbn in Hf.
  rewrite pipeline_not_target by exact Hf. rewrite andb_false_r. exact IH.
Qed.

Lemma Evaluate_spec env o e w v err w' :
  Evaluate env o e w = (v, err, w') ->
  keepsDir w w' /\
  (err = None -> calls w' = calls w ++ [(cwd w, "mvn", evalParams o e)] /\
                 v = runOut env (cwd w) (evalParams o e)).
Proof.
  rewrite Evaluate_unfold.
  destruct (Execute env (helpEvaluateOptions o e) w) as [[x xerr] xw] eqn:E.
  apply Execute_spec in E as (Hc & Hf & H).
  assert (K : keepsDir w xw) by (split; auto).
  destruct xerr as [xe|].
  - intros Hx; injection Hx as <- <- <-. split; [exact K | discriminate].
  - destruct (fst (getParametersFromOptions env (helpEvaluateOptions o e) w)) as [ps [pe|]].
    { destruct H as (_ & H & _); exfalso; apply H; reflexivity. }
    destruct H as (-> & Hcalls & H).
    unfold runOut, evalParams; unfold mavenExecutable in *.
    destruct (env_run env (cwd w) "mvn" (expectedParameters (helpEvaluateOptions o e)))
      as [[out eout] [re|]]; cbn in H |- *.
    { destruct H as [H _]; exfalso; apply H; reflexivity. }
    destruct H as (_ & Hx & _). subst x.
    destruct (HasPrefix out nullPrefix); intros Hx; injection Hx as <- <- <-;
      (split; [exact K | intros E; try discriminate]); auto.
Qed.

Lemma InstallFile_spec env file pomFile m2Path w err w' :
  InstallFile env file pomFile m2Path w = (err, w') ->
  keepsDir w w' /\
  (pomFile = "" -> w' = w /\ err <> None) /\
  (pomFile <> "" ->
   calls w' = calls w ++ [(cwd w, "mvn", installParameters file pomFile m2Path)]).
Proof.
  unfold InstallFile.
  destruct (Nat.eqb (String.length pomFile) 0) eqn:L.
  { intros H; injection H as <- <-.
    split; [apply keepsDir_refl|]. split; [intros _; split; [reflexivity | discriminate]|].
    intros Hne. destruct pomFile; [congruence | discriminate]. }
  match goal with |- context [Execute env ?eo w] => set (opts := eo) end.
  assert (P : expectedParameters opts = installParameters file pomFile m2Path).
  { subst opts. unfold expectedParameters, installParameters, installDefines. cbn.
    destruct pomFile as [|pc pf]; [discriminate|]. cbn -[Contains].
    destruct file as [|c f]; cbn -[Contains];
    destruct (String.eqb m2Path ""); cbn -[Contains]; try reflexivity.
    all: destruct (Contains (String c f) ".jar"), (Contains (String c f) "-classes");
         cbn -[Contains]; reflexivity. }
  destruct (Execute env opts w) as [[v xerr] xw] eqn:E.
  apply Execute_spec in E as (Hc & Hf & H).
  rewrite getParametersFromOptions_no_settings in H by reflexivity.
  rewrite P in H; cbn in H. destruct H as (_ & Hcalls & _).
  intros Hx. assert (K : keepsDir w xw) by (split; auto).
  split; [|split].
  - destruct xerr; injection Hx as _ <-; exact K.
  - intros ->. discriminate.
  - intros _. destruct xerr; injection Hx as _ <-; exact Hcalls.
Qed.

Lemma FileExists_keepsDir w w1 p b e :
  keepsDir w w1 -> FileExists ("target/" ++ p) w1 = (b, e) ->
  b = existsIn (files w) (cwd w) ("target/" ++ p).
Proof.
  intros (Hc & fs & Hf & Hp) H. unfold FileExists in H. injection H as <- _.
  rewrite Hc, Hf. apply existsIn_pipeline. exact Hp.
Qed.

Lemma optional_install_spec env (b : bool) file m2Path w err w' :
  (if b then InstallFile env file "pom.xml" m2Path w else (None, w)) = (err, w') ->
  keepsDir w w' /\
  (err = None -> calls w' = calls w ++
     (if b then [(cwd w, "mvn", installParameters file "pom.xml" m2Path)] else [])).
Proof.
  destruct b.
  - intros I. apply InstallFile_spec in I as (K & _ & C).
    split; [exact K | intros _; apply C; discriminate].
  - intros H; injection H as <- <-. split; [apply keepsDir_refl | intros _; rewrite app_nil_r; reflexivity].
Qed.

Lemma installJarWarArtifacts_spec env o w err w' :
  installJarWarArtifacts env o w = (err, w') ->
  keepsDir w w' /\
  (err = None -> calls w' = calls w ++ artifactCalls env (files w) o (cwd w)).
Proof.
  unfold installJarWarArtifacts, artifactCalls.
  destruct (Evaluate env o "project.build.finalName" w) as [[fn [fe|]] w1] eqn:E;
    apply Evaluate_spec in E as [K1 E].
  { intros Hx; injection Hx as <- <-. split; [exact K1 | discriminate]. }
  destruct (E eq_refl) as [C1 ->]. clear E.
  set (fn := runOut env (cwd w) (evalParams o "project.build.finalName")).
  destruct (String.eqb fn "") eqn:Efn.
  - destruct (InstallFile env "" "pom.xml" (EvalOpts.M2Path o) w1) as [ie w2] eqn:I.
    apply InstallFile_spec in I as (K2 & _ & C2).
    destruct K1 as [Hc1 F1].
    intros Hx; destruct ie; injection Hx as <- <-;
      (split; [eapply keepsDir_trans; [split; eauto | exact K2] | intros X; try discriminate]).
    rewrite (C2 ltac:(discriminate)), C1, Hc1, <- app_assoc. reflexivity.
  - unfold jarFile, warFile, classesJarFile in *.
    destruct (FileExists ("target/" ++ fn ++ ".jar") w1) as [je ?] eqn:J.
    destruct (FileExists ("target/" ++ fn ++ ".war") w1) as [we ?] eqn:W.
    destruct (FileExists ("target/" ++ fn ++ "-classes.jar") w1) as [ce ?] eqn:Cl.
    apply (FileExists_keepsDir w w1 _ _ _ K1) in J, W, Cl. subst je we ce.
    pose proof K1 as [Hc1 _].
    destruct (if existsIn (files w) (cwd w) ("target/" ++ fn ++ ".jar") then _ else _)
      as [e2 w2] eqn:S2; apply optional_install_spec in S2 as [K2 C2].
    destruct e2 as [e2|].
    { intros Hx; injection Hx as <- <-.
      split; [eapply keepsDir_trans; eauto | discriminate]. }
    pose proof K2 as [Hc2 _].
    destruct (if existsIn (files w) (cwd w) ("target/" ++ fn ++ ".war") then _ else _)
      as [e3 w3] eqn:S3; apply optional_install_spec in S3 as [K3 C3].
    destruct e3 as [e3|].
    { intros Hx; injection Hx as <- <-.
      split; [eauto using keepsDir_trans | discriminate]. }
    pose proof K3 as [Hc3 _].
    destruct (if existsIn (files w) (cwd w) ("target/" ++ fn ++ "-classes.jar") then _ else _)
      as [e4 w4] eqn:S4; apply optional_install_spec in S4 as [K4 C4].
    intros Hx; destruct e4 as [e4|]; injection Hx as <- <-;
      (split; [eauto using keepsDir_trans | intros X; try discriminate]).
    rewrite (C4 eq_refl), (C3 eq_refl), (C2 eq_refl), C1, Hc3, Hc2, Hc1.
    repeat rewrite <- app_assoc. reflexivity.
Qed.

Lemma chdir_spec env dir w err w' :
  chdir env dir w = (err, w') ->
  (err = None -> w' = set_cwd (chdir_target (cwd w) dir) w) /\ (err <> None -> w' = w).
Proof.
  unfold chdir. destruct (env_chdir_err env (chdir_target (cwd w) dir));
    intros H; injection H as <- <-; split; intros C; congruence.
Qed.

Lemma chdir_target_abs cur dir : HasPrefix dir "/" = true -> chdir_target cur dir = dir.
Proof. unfold chdir_target. intros ->. reflexivity. Qed.

Lemma artifactCalls_pipeline env fs extra o d :
  Forall pipelineFile extra ->
  artifactCalls env (fs ++ extra) o d = artifactCalls env fs o d.
Proof.
  intros Hp. unfold artifactCalls, jarFile, warFile, classesJarFile.
  rewrite !existsIn_pipeline by exact Hp. reflexivity.
Qed.

Lemma moduleCalls_pipeline env fs extra o old p :
  Forall pipelineFile extra ->
  moduleCalls env (fs ++ extra) o old p = moduleCalls env fs o old p.
Proof.
  intros Hp. unfold moduleCalls. rewrite artifactCalls_pipeline by exact Hp. reflexivity.
Qed.

Lemma installModules_spec env o old poms :
  HasPrefix old "/" = true ->
  forall w w', cwd w = old ->
  installModules env o old poms w = (None, w') ->
  keepsDir w w' /\ calls w' = calls w ++ concat (map (moduleCalls env (files w) o old) poms).
Proof.
  intros Habs. induction poms as [|p poms IH]; intros w w' Hc H.
  { injection H as <-. split; [apply keepsDir_refl | rewrite app_nil_r; reflexivity]. }
  cbn [installModules] in H.
  destruct (chdir env (path_Dir p) w) as [[ce|] w1] eqn:D; [discriminate|].
  apply chdir_spec in D as [D _]. specialize (D eq_refl). subst w1.
  set (d := chdir_target (cwd w) (path_Dir p)) in *.
  destruct (Evaluate env o "project.packaging" (set_cwd d w)) as [[pk [pe|]] w2] eqn:E;
    [discriminate|].
  apply Evaluate_spec in E as [K2 E]. destruct (E eq_refl) as [C2 Hpk]. clear E.
  cbn [cwd set_cwd calls] in C2, Hpk.
  destruct (if String.eqb pk "pom" then _ else _) as [[ie|] w3] eqn:I; [discriminate|].
  assert (X : keepsDir (set_cwd d w) w3 /\
              calls w3 = calls w2 ++
                (if String.eqb pk "pom"
                 then [(d, "mvn", installParameters "" "pom.xml" (EvalOpts.M2Path o))]
                 else artifactCalls env (files w) o d)).
  { destruct (String.eqb pk "pom").
    - apply InstallFile_spec in I as (K3 & _ & C3).
      split; [eauto using keepsDir_trans|].
      rewrite (C3 ltac:(discriminate)). destruct K2 as [-> _]. reflexivity.
    - apply installJarWarArtifacts_spec in I as [K3 C3].
      split; [eauto using keepsDir_trans|].
      rewrite (C3 eq_refl). destruct K2 as [Hc2 (fs2 & Hf2 & Hp2)].
      rewrite Hc2, Hf2. cbn [cwd files set_cwd].
      rewrite artifactCalls_pipeline by exact Hp2. reflexivity. }
  destruct X as [K3 C3].
  destruct (chdir env old w3) as [[ce|] w4] eqn:D; [discriminate|].
  apply chdir_spec in D as [D _]. specialize (D eq_refl). subst w4.
  rewrite chdir_target_abs in H by exact Habs.
  destruct K3 as [Hc3 (fs3 & Hf3 & Hp3)]. cbn [cwd files set_cwd] in Hc3, Hf3.
  apply IH in H as [K4 C4]; [| reflexivity].
  split.
  - eapply keepsDir_trans; [| exact K4]. split; [cbn; congruence|].
    exists fs3. cbn. split; auto.
  - rewrite C4. cbn [files calls set_cwd]. rewrite Hf3.
    rewrite (map_ext (moduleCalls env (files w ++ fs3) o old) (moduleCalls env (files w) o old))
      by (intros q; apply moduleCalls_pipeline; exact Hp3).
    rewrite C3, C2. cbn [concat map].
    unfold moduleCalls. subst d. rewrite Hc in Hpk |- *. rewrite <- Hpk.
    repeat rewrite <- app_assoc. reflexivity.
Qed.

Lemma flattenPom_spec env w err w' :
  flattenPom env w = (err, w') ->
  keepsDir w w' /\ (err = None -> calls w' = calls w ++ [(cwd w, "mvn", flattenParameters)]).
Proof.
  unfold flattenPom.
  match goal with |- context [Execute env ?eo w] => set (opts := eo) end.
  destruct (Execute env opts w) as [[v xerr] xw] eqn:E.
  apply Execute_spec in E as (Hc & Hf & H).
  rewrite getParametersFromOptions_no_settings in H by reflexivity.
  cbn [fst] in H. destruct H as (_ & Hcalls & _).
  intros Hx; injection Hx as <- <-. split; [split; auto | intros _; exact Hcalls].
Qed.

Lemma doInstallMavenArtifacts_spec env o w w' :
  HasPrefix (cwd w) "/" = true ->
  doInstallMavenArtifacts env o w = (None, w') ->
  cwd w' = cwd w /\ calls w' = calls w ++ installCalls env o w.
Proof.
  intros Habs. unfold doInstallMavenArtifacts.
  destruct (flattenPom env w) as [[fe|] w1] eqn:F; [discriminate|].
  apply flattenPom_spec in F as [[Hc1 (fs1 & Hf1 & Hp1)] C1]. specialize (C1 eq_refl).
  unfold glob, getwd. rewrite Hc1.
  destruct (env_glob env (cwd w) (filepath_Join "**" "pom.xml")) as [poms [ge|]] eqn:G;
    [discriminate|].
  destruct (env_getwd_err env) as [we|]; [discriminate|].
  intros H. rewrite <- Hc1 in H.
  apply installModules_spec in H as [[Hc2 _] C2]; [| rewrite Hc1; exact Habs | reflexivity].
  split; [congruence|].
  rewrite C2, C1, Hf1, Hc1.
  rewrite (map_ext (moduleCalls env (files w ++ fs1) _ (cwd w)) (moduleCalls env (files w) _ (cwd w)))
    by (intros q; apply moduleCalls_pipeline; exact Hp1).
  unfold installCalls. rewrite G. cbn [fst]. rewrite <- app_assoc. reflexivity.
Qed.

(** ** Effects of the settings downloads and of the installation steps *)

Lemma downloadSettingsIfURL_downloads env opt path w v err w' :
  downloadSettingsIfURL env opt path w = (v, err, w') ->
  downloads w' = downloads w ++ dlOf opt path w /\
  (forall e, err = Some e -> exists e0,
     dlOf opt path w = [(cwd w, opt, path)] /\ env_download env opt path = Some e0 /\
     e = settingsError opt path e0).
Proof.
  unfold downloadSettingsIfURL, dlOf, downloadSettingsFromURL, DownloadFile.
  change (HasPrefix opt "http:" || HasPrefix opt "https:") with (isURL opt).
  replace (FileExists path w) with (existsIn (files w) (cwd w) path, @None error) by reflexivity.
  destruct (isURL opt), (existsIn (files w) (cwd w) path), (env_download env opt path) eqn:Ed;
    cbn; intros H; inversion H; subst; clear H; cbn;
    rewrite ?app_nil_r; (split; [reflexivity|]); intros ? E; try discriminate E.
  all: inversion E; subst; eexists; repeat split; assumption.
Qed.

Lemma dlOf_global o w0 d : cwd w0 = d ->
  Forall (settingsDownload o d) (dlOf (GlobalSettingsFile o) ".pipeline/mavenGlobalSettings.xml" w0).
Proof.
  intros <-. unfold dlOf. destruct (isURL _) eqn:U; cbn; [|constructor].
  destruct (negb _); repeat constructor. exists (GlobalSettingsFile o), ".pipeline/mavenGlobalSettings.xml"; auto.
Qed.

Lemma dlOf_project o w0 d : cwd w0 = d ->
  Forall (settingsDownload o d) (dlOf (ProjectSettingsFile o) ".pipeline/mavenProjectSettings.xml" w0).
Proof.
  intros <-. unfold dlOf. destruct (isURL _) eqn:U; cbn; [|constructor].
  destruct (negb _); repeat constructor. exists (ProjectSettingsFile o), ".pipeline/mavenProjectSettings.xml"; auto.
Qed.

Ltac dl_step2 :=
  match goal with
  | H : context [downloadSettingsIfURL ?env ?opt ?path ?w] |- _ =>
      let g := fresh "g" in let e := fresh "e" in let w1 := fresh "w" in
      let D := fresh "D" in let S := fresh "S" in let V := fresh "V" in
      let Dl := fresh "Dl" in let De := fresh "De" in
      destruct (downloadSettingsIfURL env opt path w) as [[g e] w1] eqn:D;
      pose proof (downloadSettingsIfURL_downloads _ _ _ _ _ _ _ D) as [Dl De];
      apply downloadSettingsIfURL_spec in D as [S V]; [|reflexivity]
  end.

Lemma existsIn_In fs d p : existsIn fs d p = true <-> In (d, p) fs.
Proof.
  unfold existsIn. rewrite existsb_exists. split.
  - intros [[d' f] [I E]]. apply andb_true_iff in E as [E1 E2].
    apply String.eqb_eq in E1, E2. subst. exact I.
  - intros I. exists (d, p). split; [exact I|]. rewrite !String.eqb_refl. reflexivity.
Qed.

Lemma downloadSettingsIfURL_stable env opt path w r w1 :
  downloadSettingsIfURL env opt path w = (r, None, w1) ->
  forall w2, cwd w2 = cwd w1 -> (forall x, In x (files w1) -> In x (files w2)) ->
  downloadSettingsIfURL env opt path w2 = (r, None, w2).
Proof.
  unfold downloadSettingsIfURL, downloadSettingsFromURL, DownloadFile.
  change (HasPrefix opt "http:" || HasPrefix opt "https:") with (isURL opt).
  replace (FileExists path w) with (existsIn (files w) (cwd w) path, @None error) by reflexivity.
  intros H w2 Ec Ef.
  replace (FileExists path w2) with (existsIn (files w2) (cwd w2) path, @None error) by reflexivity.
  destruct (isURL opt); [|inversion H; reflexivity].
  destruct (existsIn (files w) (cwd w) path) eqn:X.
  - inversion H as [[E1 E2]]; subst r w1; clear H.
    apply existsIn_In, Ef in X. rewrite Ec. apply existsIn_In in X. rewrite X. reflexivity.
  - destruct (env_download env opt path); cbn in H; inversion H as [[E1 E2]]; subst r w1; clear H.
    cbn in *.
    assert (I : In (cwd w, path) (files w2)) by (apply Ef, in_or_app; right; left; reflexivity).
    rewrite Ec. apply existsIn_In in I. rewrite I. reflexivity.
Qed.

Lemma addsCalls_refl P w : addsCalls P w w.
Proof. exists []. rewrite app_nil_r. auto. Qed.

Lemma addsCalls_trans P w1 w2 w3 : addsCalls P w1 w2 -> addsCalls P w2 w3 -> addsCalls P w1 w3.
Proof.
  intros (cs1 & E1 & F1) (cs2 & E2 & F2). exists (cs1 ++ cs2).
  rewrite E2, E1, app_assoc. split; [reflexivity | apply Forall_app; auto].
Qed.

Lemma addsCalls_mono (P Q : string * string * list string -> Prop) w w' :
  (forall c, P c -> Q c) -> addsCalls P w w' -> addsCalls Q w w'.
Proof. intros PQ (cs & E & F). exists cs. split; [exact E | eapply Forall_impl; eauto]. Qed.

Lemma addsCalls_one (P : string * string * list string -> Prop) c w w' :
  calls w' = calls w ++ [c] -> P c -> addsCalls P w w'.
Proof. intros E Pc. exists [c]. auto. Qed.

Lemma Execute_adds env o w v err w' :
  Execute env o w = (v, err, w') ->
  addsCalls (eq (cwd w, "mvn", expectedParameters o)) w w'.
Proof.
  intros E. apply Execute_spec in E as (_ & _ & H).
  destruct (fst (getParametersFromOptions env o w)) as [ps [pe|]].
  - destruct H as (Hc & _). exists []. rewrite Hc, app_nil_r. auto.
  - destruct H as (-> & Hc & _). eapply addsCalls_one; [exact Hc | reflexivity].
Qed.

Lemma Evaluate_adds env o e w v err w' :
  Evaluate env o e w = (v, err, w') ->
  keepsDir w w' /\ addsCalls (eq (cwd w, "mvn", evalParams o e)) w w'.
Proof.
  intros E. split; [exact (proj1 (Evaluate_spec _ _ _ _ _ _ _ E))|].
  rewrite Evaluate_unfold in E.
  destruct (Execute env (helpEvaluateOptions o e) w) as [[x xerr] xw] eqn:X.
  apply Execute_adds in X.
  assert (xw = w') as <-.
  { destruct xerr; [|destruct (HasPrefix x nullPrefix)]; injection E as _ _ <-; reflexivity. }
  exact X.
Qed.

Lemma InstallFile_adds env file pomFile m2Path w err w' :
  InstallFile env file pomFile m2Path w = (err, w') ->
  keepsDir w w' /\ addsCalls (eq (cwd w, "mvn", installParameters file pomFile m2Path)) w w'.
Proof.
  intros I. apply InstallFile_spec in I as (K & E & C). split; [exact K|].
  destruct (String.eqb pomFile "") eqn:P.
  - apply String.eqb_eq in P. destruct (E P) as [Hw _]. subst w'. apply addsCalls_refl.
  - apply String.eqb_neq in P. eapply addsCalls_one; [exact (C P) | reflexivity].
Qed.

Lemma evalParams_moduleRun o d e :
  e = "project.packaging" \/ e = "project.build.finalName" ->
  moduleRun o d (d, "mvn", evalParams o e).
Proof. intros [-> | ->]; eexists; split; eauto. Qed.

Lemma install_moduleRun o d file :
  moduleRun o d (d, "mvn", installParameters file "pom.xml" (EvalOpts.M2Path o)).
Proof. eexists; split; [reflexivity | right; right; eauto]. Qed.

Lemma optional_install_adds env o (b : bool) file w err w' :
  (if b then InstallFile env file "pom.xml" (EvalOpts.M2Path o) w else (None, w)) = (err, w') ->
  keepsDir w w' /\ addsCalls (moduleRun o (cwd w)) w w'.
Proof.
  destruct b.
  - intros I. apply InstallFile_adds in I as [K A]. split; [exact K|].
    eapply addsCalls_mono; [|exact A]. intros c <-. apply install_moduleRun.
  - intros H; injection H as <- <-. split; [apply keepsDir_refl | apply addsCalls_refl].
Qed.

Lemma installJarWarArtifacts_adds env o w err w' :
  installJarWarArtifacts env o w = (err, w') ->
  keepsDir w w' /\ addsCalls (moduleRun o (cwd w)) w w'.
Proof.
  unfold installJarWarArtifacts.
  destruct (Evaluate env o "project.build.finalName" w) as [[fn fe] w1] eqn:E.
  apply Evaluate_adds in E as [K1 A1].
  apply (addsCalls_mono _ (moduleRun o (cwd w))) in A1;
    [| intros c <-; apply evalParams_moduleRun; auto].
  pose proof K1 as [Hc1 _].
  destruct fe as [fe|].
  { intros Hx; injection Hx as <- <-. auto. }
  destruct (String.eqb fn "").
  - destruct (InstallFile env "" "pom.xml" (EvalOpts.M2Path o) w1) as [ie w2] eqn:I.
    apply (optional_install_adds env o true) in I as [K2 A2]. rewrite Hc1 in A2.
    intros Hx; destruct ie; injection Hx as <- <-;
      split; eauto using keepsDir_trans, addsCalls_trans.
  - destruct (FileExists (jarFile fn) w1) as [je ?].
    destruct (FileExists (warFile fn) w1) as [we ?].
    destruct (FileExists (classesJarFile fn) w1) as [ce ?].
    destruct (if je then _ else _) as [e2 w2] eqn:S2;
      apply optional_install_adds in S2 as [K2 A2]; rewrite Hc1 in A2.
    pose proof K2 as [Hc2 _].
    destruct e2 as [e2|].
    { intros Hx; injection Hx as <- <-. split; eauto using keepsDir_trans, addsCalls_trans. }
    destruct (if we then _ else _) as [e3 w3] eqn:S3;
      apply optional_install_adds in S3 as [K3 A3]; rewrite Hc2, Hc1 in A3.
    pose proof K3 as [Hc3 _].
    destruct e3 as [e3|].
    { intros Hx; injection Hx as <- <-. split; eauto using keepsDir_trans, addsCalls_trans. }
    destruct (if ce then _ else _) as [e4 w4] eqn:S4;
      apply optional_install_adds in S4 as [K4 A4]; rewrite Hc3, Hc2, Hc1 in A4.
    intros Hx; destruct e4; injection Hx as <- <-;
      split; eauto using keepsDir_trans, addsCalls_trans.
Qed.

Lemma installModules_adds env o old poms :
  HasPrefix old "/" = true ->
  forall w err w', cwd w = old ->
  installModules env o old poms w = (err, w') ->
  addsCalls (fun c => exists p, In p poms /\ moduleRun o (moduleDir old p) c) w w' /\
  (cwd w' = old \/ exists p, In p poms /\ cwd w' = moduleDir old p).
Proof.
  intros Habs. induction poms as [|p poms IH]; intros w err w' Hc H.
  { injection H as _ <-. split; [apply addsCalls_refl | left; exact Hc]. }
  cbn [installModules] in H.
  set (P := fun c => exists q, In q (p :: poms) /\ moduleRun o (moduleDir old q) c).
  assert (Here : forall c, moduleRun o (moduleDir old p) c -> P c)
    by (intros c M; exists p; split; [left; reflexivity | exact M]).
  destruct (chdir env (path_Dir p) w) as [[ce|] w1] eqn:D.
  { apply chdir_spec in D as [_ D]. rewrite (D ltac:(discriminate)) in H.
    injection H as _ <-. split; [apply addsCalls_refl | left; exact Hc]. }
  apply chdir_spec in D as [D _]. specialize (D eq_refl). subst w1.
  assert (Hd : chdir_target (cwd w) (path_Dir p) = moduleDir old p) by (rewrite Hc; reflexivity).
  rewrite Hd in H.
  set (d := moduleDir old p) in *.
  assert (A0 : addsCalls P w (set_cwd d w)) by (exists []; rewrite app_nil_r; auto).
  destruct (Evaluate env o "project.packaging" (set_cwd d w)) as [[pk pe] w2] eqn:E.
  apply Evaluate_adds in E as [K2 A2]. cbn [cwd set_cwd] in A2.
  apply (addsCalls_mono _ P) in A2; [| intros c <-; apply Here, evalParams_moduleRun; auto].
  pose proof K2 as [Hc2 _]. cbn [cwd set_cwd] in Hc2.
  destruct pe as [pe|].
  { injection H as _ <-. split; [eauto using addsCalls_trans | right; exists p; split; [left|]; auto]. }
  destruct (if String.eqb pk "pom" then _ else _) as [ie w3] eqn:I.
  assert (X : keepsDir w2 w3 /\ addsCalls P w2 w3).
  { destruct (String.eqb pk "pom").
    - apply (optional_install_adds env o true) in I as [K3 A3]. split; [exact K3|].
      eapply addsCalls_mono; [|exact A3]. intros c M. apply Here. rewrite <- Hc2. exact M.
    - apply installJarWarArtifacts_adds in I as [K3 A3]. split; [exact K3|].
      eapply addsCalls_mono; [|exact A3]. intros c M. apply Here. rewrite <- Hc2. exact M. }
  destruct X as [[Hc3 _] A3].
  destruct ie as [ie|].
  { injection H as _ <-. split; [eauto using addsCalls_trans | right; exists p; split; [left; reflexivity | rewrite Hc3, Hc2; reflexivity]]. }
  destruct (chdir env old w3) as [[ce|] w4] eqn:D.
  { apply chdir_spec in D as [_ D]. rewrite (D ltac:(discriminate)) in H.
    injection H as _ <-. split; [eauto using addsCalls_trans | right; exists p; split; [left; reflexivity | rewrite Hc3, Hc2; reflexivity]]. }
  apply chdir_spec in D as [D _]. specialize (D eq_refl). subst w4.
  rewrite chdir_target_abs in H by exact Habs.
  apply IH in H as [A4 C4]; [| reflexivity].
  split.
  - eapply addsCalls_trans; [eapply addsCalls_trans; [eapply addsCalls_trans; [exact A0 | exact A2] | exact A3] |].
    eapply addsCalls_trans; [exists []; rewrite app_nil_r; split; [reflexivity | constructor] |].
    eapply addsCalls_mono; [| exact A4]. intros c (q & Iq & M). exists q. split; [right; exact Iq | exact M].
  - destruct C4 as [C4 | (q & Iq & C4)]; [left; exact C4 | right; exists q; split; [right; exact Iq | exact C4]].
Qed.

Lemma flattenPom_calls env w err w' :
  flattenPom env w = (err, w') ->
  keepsDir w w' /\ calls w' = calls w ++ [(cwd w, "mvn", flattenParameters)].
Proof.
  unfold flattenPom.
  match goal with |- context [Execute env ?eo w] => set (opts := eo) end.
  destruct (Execute env opts w) as [[v xerr] xw] eqn:E.
  apply Execute_spec in E as (Hc & Hf & H).
  rewrite getParametersFromOptions_no_settings in H by reflexivity.
  cbn [fst] in H. destruct H as (_ & Hcalls & _).
  intros Hx; injection Hx as <- <-. split; [split; auto | exact Hcalls].
Qed.

Lemma doInstallMavenArtifacts_adds env o w err w' :
  HasPrefix (cwd w) "/" = true ->
  doInstallMavenArtifacts env o w = (err, w') ->
  (exists cs, calls w' = calls w ++ (cwd w, "mvn", flattenParameters) :: cs /\
     Forall (fun c => exists p, In p (globbedPoms env w) /\
                        moduleRun (moduleOptions o) (moduleDir (cwd w) p) c) cs) /\
  (cwd w' = cwd w \/ exists p, In p (globbedPoms env w) /\ cwd w' = moduleDir (cwd w) p).
Proof.
  intros Habs. unfold doInstallMavenArtifacts, globbedPoms.
  destruct (flattenPom env w) as [fe w1] eqn:F.
  apply flattenPom_calls in F as [[Hc1 _] C1].
  assert (Base : calls w1 = calls w ++ (cwd w, "mvn", flattenParameters) :: []) by exact C1.
  destruct fe as [fe|].
  { intros Hx; injection Hx as <- <-. split; [exists []; auto | left; exact Hc1]. }
  unfold glob, getwd. rewrite Hc1.
  destruct (env_glob env (cwd w) (filepath_Join "**" "pom.xml")) as [poms ge] eqn:G.
  cbn [fst].
  destruct ge as [ge|].
  { intros Hx; injection Hx as <- <-. split; [exists []; auto | left; exact Hc1]. }
  destruct (env_getwd_err env) as [we|].
  { intros Hx; injection Hx as <- <-. split; [exists []; auto | left; exact Hc1]. }
  intros H. rewrite <- Hc1 in H.
  apply installModules_adds in H as [(cs & E2 & F2) C2]; [| rewrite Hc1; exact Habs | reflexivity].
  rewrite Hc1 in F2, C2. split.
  - exists cs. rewrite E2, C1, <- app_assoc. split; [reflexivity | exact F2].
  - exact C2.
Qed.

Lemma split_file (a b c rest : list string) (x y : string) :
  exists pre post, a ++ b ++ c ++ [x; y] ++ rest = pre ++ x :: y :: post.
Proof. exists (a ++ b ++ c), rest. rewrite <- !app_assoc. reflexivity. Qed.

Lemma moduleRun_batchPomRun o d c : moduleRun (moduleOptions o) d c -> batchPomRun c.
Proof.
  intros (ps & -> & H). unfold batchPomRun; cbn [fst snd]. split; [reflexivity|].
  destruct H as [-> | [-> | [file ->]]].
  1-2: unfold evalParams, expectedParameters, helpEvaluateOptions, moduleOptions;
       cbn [GlobalSettingsFile ProjectSettingsFile M2Path PomPath Flags Defines
         LogSuccessfulMavenTransfers Goals EvalOpts.PomPath EvalOpts.M2Path
         EvalOpts.GlobalSettingsFile EvalOpts.ProjectSettingsFile];
       change (if String.eqb "pom.xml" "" then [] else ["--file"; "pom.xml"]) with ["--file"; "pom.xml"];
       (split; [|split]); [rewrite !in_app_iff; cbn; tauto | rewrite !in_app_iff; cbn; tauto
                          | apply split_file].
  unfold installParameters.
  (split; [|split]); [rewrite !in_app_iff; cbn; tauto | rewrite !in_app_iff; cbn; tauto
                     | exists (if String.eqb (EvalOpts.M2Path o) "" then [] else ["-Dmaven.repo.local=" ++ EvalOpts.M2Path o]%string); eexists; reflexivity].
Qed.

Lemma flatten_batchPomRun d : batchPomRun (d, "mvn", flattenParameters).
Proof.
  unfold batchPomRun, flattenParameters; cbn. split; [reflexivity|]. split; [tauto|]. split; [tauto|].
  exists [], ["-Dflatten.mode=resolveCiFriendliesOnly"; slf4jWarn; "--batch-mode"; "flatten:flatten"]. reflexivity.
Qed.

Lemma HasPrefix_nil_inv x : HasPrefix "" x = true -> x = "".
Proof. destruct x; [reflexivity | discriminate]. Qed.

Lemma HasPrefix_nil s : HasPrefix s "" = true.
Proof. destruct s; reflexivity. Qed.

Lemma HasPrefix_app s t p : HasPrefix s p = true -> HasPrefix (s ++ t) p = true.
Proof.
  revert s. induction p as [|c p IH]; intros s H; [apply HasPrefix_nil|].
  destruct s as [|d s]; [discriminate|]. cbn in *.
  apply andb_true_iff in H as [H1 H2]. rewrite H1, (IH _ H2). reflexivity.
Qed.

Lemma string_app_cons c s t : (String c s ++ t)%string = String c (s ++ t).
Proof. reflexivity. Qed.

Lemma Contains_cons c s x : Contains (String c s) x = HasPrefix (String c s) x || Contains s x.
Proof. reflexivity. Qed.

Lemma Contains_app_l s t x : Contains s x = true -> Contains (s ++ t) x = true.
Proof.
  induction s as [|c s IH]; intros H.
  - cbn in H. rewrite orb_false_r in H. apply HasPrefix_nil_inv in H. subst x.
    destruct t; reflexivity.
  - rewrite Contains_cons in H. rewrite string_app_cons, Contains_cons.
    apply orb_true_iff in H as [H | H].
    + apply (HasPrefix_app _ t) in H. rewrite string_app_cons in H. rewrite H. reflexivity.
    + rewrite (IH H), orb_true_r. reflexivity.
Qed.

Lemma Contains_app_r s t x : Contains t x = true -> Contains (s ++ t) x = true.
Proof.
  induction s as [|c s IH]; intros H; [exact H|].
  rewrite string_app_cons, Contains_cons, (IH H), orb_true_r. reflexivity.
Qed.

Lemma installParameters_In file pomFile m2Path d :
  String.eqb file "" = false -> Contains file d = true ->
  (d = ".jar" -> In "-Dpackaging=jar" (installParameters file pomFile m2Path)) /\
  (d = "-classes" -> In "-Dclassifier=classes" (installParameters file pomFile m2Path)).
Proof.
  intros F C. unfold installParameters, installDefines. rewrite F.
  split; intros ->; rewrite C; rewrite !in_app_iff; cbn -[Contains];
    [tauto | destruct (Contains file ".jar"); cbn; tauto].
Qed.

Lemma InstallFile_pom_calls env file m2Path w :
  calls (snd (InstallFile env file "pom.xml" m2Path w)) =
  calls w ++ [(cwd w, "mvn", installParameters file "pom.xml" m2Path)].
Proof.
  destruct (InstallFile env file "pom.xml" m2Path w) as [err w'] eqn:I.
  apply InstallFile_spec in I as (_ & _ & C). apply C. discriminate.
Qed.

(** ** The claims *)

(** C1: whenever [getParametersFromOptions] builds a parameter list, it is
    the global settings, the project settings, the local repository, the
    pom file (each only when its option is non-empty), the flags, the
    defines, the transfer-listener define (only when successful transfers
    are not logged), [--batch-mode] and the goals, in this order. *)
Theorem getParametersFromOptions_order env o w ps w' :
  getParametersFromOptions env o w = (ps, None, w') ->
  ps = expectedParameters o.
Proof. intros H. apply getParametersFromOptions_spec in H as [_ H]. auto. Qed.

(** C3: [Evaluate] returns the empty string and an error exactly when the
    underlying [Execute] fails or its output starts with
    ["null object or invalid expression"]; otherwise it returns that output
    unchanged and no error. *)
Theorem Evaluate_result env o e w :
  let '(v, err, w') := Evaluate env o e w in
  let '(x, xerr, xw) := Execute env (helpEvaluateOptions o e) w in
  w' = xw /\
  ((v = "" /\ err <> None) <-> (xerr <> None \/ HasPrefix x nullPrefix = true)) /\
  (xerr = None -> HasPrefix x nullPrefix = false -> v = x /\ err = None).
Proof.
  rewrite Evaluate_unfold.
  destruct (Execute env (helpEvaluateOptions o e) w) as [[x [xe|]] xw]; cbn.
  - intuition discriminate.
  - destruct (HasPrefix x nullPrefix); cbn; intuition (try discriminate; try congruence).
Qed.

(** C5: [Evaluate] runs [Execute] with the help plugin's evaluate goal, the
    defines [-Dexpression=<expression>], [-DforceStdout] and [-q],
    [ReturnStdout] set, and the pom path, local repository and settings
    files of its options: its effects are those of that [Execute] call and
    its result is computed from that call's result. *)
Theorem Evaluate_runs_help_plugin env o e :
  (forall w, snd (Evaluate env o e w) = snd (Execute env (helpEvaluateOptions o e) w)) /\
  exists f, forall w, fst (Evaluate env o e w) = f (fst (Execute env (helpEvaluateOptions o e) w)).
Proof.
  split.
  - intros w. rewrite Evaluate_unfold.
    destruct (Execute env (helpEvaluateOptions o e) w) as [[x [xe|]] xw]; cbn; auto.
    destruct (HasPrefix x nullPrefix); reflexivity.
  - exists (fun '(x, xerr) =>
      match xerr with
      | Some e' => ("", Some e')
      | None =>
        if HasPrefix x nullPrefix then
          ("", Some ("expression '" ++ e ++ "' in file '"
                     ++ EvalOpts.PomPath o ++ "' could not be resolved")%string)
        else (x, None)
      end).
    intros w. rewrite Evaluate_unfold.
    destruct (Execute env (helpEvaluateOptions o e) w) as [[x [xe|]] xw]; cbn; auto.
    destruct (HasPrefix x nullPrefix); reflexivity.
Qed.

(** C4: [Execute] runs [mvn] exactly once with the list built by
    [getParametersFromOptions] and fails (with an empty result) exactly when
    that run fails; when building the parameters fails it does not run the
    runner and fails. *)
Theorem Execute_invokes_runner_once env o w :
  let '(v, err, w') := Execute env o w in
  match fst (getParametersFromOptions env o w) with
  | (_, Some _) => calls w' = calls w /\ err <> None /\ v = ""
  | (ps, None) =>
      calls w' = calls w ++ [(cwd w, "mvn", ps)] /\
      (err <> None <-> snd (env_run env (cwd w) "mvn" ps) <> None) /\
      (err <> None -> v = "")
  end.
Proof.
  destruct (Execute env o w) as [[v err] w'] eqn:E.
  apply Execute_spec in E as (_ & _ & H).
  destruct (fst (getParametersFromOptions env o w)) as [ps [e|]]; auto.
  destruct H as (_ & Hc & H). split; [exact Hc|].
  unfold mavenExecutable in H.
  destruct (env_run env (cwd w) "mvn" ps) as [[out eout] [re|]]; cbn;
    destruct H as [H1 H2].
  - split; [split; intros _; [discriminate | exact H1] | intros _; exact H2].
  - destruct H2 as [H2 _]. subst err.
    split; [split; intros C; exfalso; apply C; reflexivity | intros C; exfalso; apply C; reflexivity].
Qed.

(** C10: when the runner succeeds, [Execute] returns what the runner wrote
    to stdout if [ReturnStdout] is set and the empty string otherwise, and
    the log writer receives that output as well. *)
Theorem Execute_returns_stdout env o w ps out eout :
  fst (getParametersFromOptions env o w) = (ps, None) ->
  env_run env (cwd w) "mvn" ps = (out, eout, None) ->
  let '(v, err, w') := Execute env o w in
  err = None /\ v = (if ReturnStdout o then out else "") /\
  log_out w' = ((log_out w ++ out) ++ eout)%string.
Proof.
  intros G R.
  destruct (Execute env o w) as [[v err] w'] eqn:E.
  apply Execute_spec in E as (_ & _ & H).
  rewrite G in H. destruct H as (_ & _ & H). unfold mavenExecutable in H. rewrite R in H. exact H.
Qed.

(** C6: a settings option that is not an [http:] or [https:] URL is used
    unchanged without any download; a URL is downloaded to the fixed local
    path unless a file exists there, and that local path is what follows
    [--global-settings] or [--settings] in the Maven parameters. *)
Theorem settings_download_if_url env opt path w :
  (isURL opt = false -> downloadSettingsIfURL env opt path w = (opt, None, w)) /\
  (isURL opt = true -> fst (FileExists path w) = true ->
     downloadSettingsIfURL env opt path w = (path, None, w)) /\
  (isURL opt = true -> fst (FileExists path w) = false ->
     let '(v, err, w') := downloadSettingsIfURL env opt path w in
     downloads w' = downloads w ++ [(cwd w, opt, path)] /\ (err = None -> v = path)) /\
  (forall o ps w', GlobalSettingsFile o = opt -> opt <> "" ->
     getParametersFromOptions env o w = (ps, None, w') ->
     firstn 2 ps = ["--global-settings"; settingsArg opt ".pipeline/mavenGlobalSettings.xml"]) /\
  (forall o ps w', ProjectSettingsFile o = opt -> opt <> "" ->
     getParametersFromOptions env o w = (ps, None, w') ->
     exists pre post, ps = pre ++ ["--settings"; settingsArg opt ".pipeline/mavenProjectSettings.xml"] ++ post).
Proof.
  unfold isURL, downloadSettingsIfURL, downloadSettingsFromURL.
  repeat split.
  - intros H. rewrite H. reflexivity.
  - intros H E. rewrite H. destruct (FileExists path w) as [b e]. cbn in E. subst b. reflexivity.
  - intros H E. rewrite H. destruct (FileExists path w) as [b e]. cbn in E. subst b.
    unfold DownloadFile. destruct (env_download env opt path); cbn; auto.
    split; [reflexivity | discriminate].
  - intros o ps w' <- Hne G. apply getParametersFromOptions_spec in G as [_ G].
    rewrite (G eq_refl). unfold expectedParameters.
    apply String.eqb_neq in Hne. rewrite Hne. reflexivity.
  - intros o ps w' <- Hne G. apply getParametersFromOptions_spec in G as [_ G].
    rewrite (G eq_refl). unfold expectedParameters.
    apply String.eqb_neq in Hne. rewrite Hne.
    eexists _, _. reflexivity.
Qed.

(** C7: the generated command registers exactly the ten flags, in order,
    each bound to the field whose json tag is its name, with default
    ["nexus3"] for [version] and the [PIPER_<name>] environment variable for
    the others, and marks exactly [url] and [repository] as required. *)
Theorem addNexusUploadFlags_registers getenv :
  let cmd := Cmd.addNexusUploadFlags getenv {| Cmd.cmd_flags := []; Cmd.cmd_required := [] |} in
  map Cmd.flag_name (Cmd.cmd_flags cmd) =
    ["version"; "url"; "repository"; "groupId"; "artifactId"; "globalSettingsFile";
     "m2Path"; "additionalClassifiers"; "user"; "password"] /\
  Forall (fun f => Cmd.json_tag (Cmd.flag_target f) = Cmd.flag_name f) (Cmd.cmd_flags cmd) /\
  Forall (fun f => Cmd.flag_default f =
            if String.eqb (Cmd.flag_name f) "version" then "nexus3"
            else getenv ("PIPER_" ++ Cmd.flag_name f)%string) (Cmd.cmd_flags cmd) /\
  Cmd.cmd_required cmd = ["url"; "repository"].
Proof.
  cbn. repeat split; repeat constructor.
Qed.

(** C8: with an empty pom file [InstallFile] fails without touching the
    world (so without running Maven); otherwise it runs Maven with
    [-Dfile=<pomFile>] for an empty file, else [-Dfile=<file>] with
    [-Dpackaging=jar] iff the file contains [.jar] and
    [-Dclassifier=classes] iff it contains [-classes]. *)
Theorem InstallFile_parameters env file pomFile m2Path w :
  (pomFile = "" -> exists e, InstallFile env file pomFile m2Path w = (Some e, w)) /\
  (pomFile <> "" ->
   calls (snd (InstallFile env file pomFile m2Path w)) =
   calls w ++ [(cwd w, "mvn", installParameters file pomFile m2Path)]).
Proof.
  split.
  - intros ->. eexists. reflexivity.
  - intros Hne.
    destruct (InstallFile env file pomFile m2Path w) as [err w'] eqn:I.
    apply InstallFile_spec in I as (_ & _ & C). exact (C Hne).
Qed.

(** C9: when [doInstallMavenArtifacts] returns no error, started from an
    absolute working directory (as [os.Getwd] reports it), the working
    directory at return is the one at entry. *)
Theorem doInstallMavenArtifacts_restores_cwd env o w w' :
  HasPrefix (cwd w) "/" = true ->
  doInstallMavenArtifacts env o w = (None, w') ->
  cwd w' = cwd w.
Proof.
  intros Habs H. apply doInstallMavenArtifacts_spec in H as [H _]; auto.
Qed.

(** C2 (amended): a successful [doInstallMavenArtifacts] from an absolute
    working directory runs the flatten goal, then for each pom file in glob
    order, in the pom's directory: evaluates [project.packaging]; for [pom]
    installs the pom only; otherwise evaluates [project.build.finalName] and
    installs the pom only when it is empty, else each of the jar, war and
    classes jar that exists on disk. *)
Theorem doInstallMavenArtifacts_calls env o w w' :
  HasPrefix (cwd w) "/" = true ->
  doInstallMavenArtifacts env o w = (None, w') ->
  calls w' = calls w ++ installCalls env o w.
Proof.
  intros Habs H. apply doInstallMavenArtifacts_spec in H as [_ H]; auto.
Qed.

(** C2 fails as stated: with packaging [jar], an empty final name and
    [target/.jar] on disk in the module directory, the run succeeds but
    never installs [target/.jar]; it installs the pom only. *)
Lemma doInstallMavenArtifacts_empty_finalName :
  let '(err, w') := doInstallMavenArtifacts emptyFinalNameEnv sampleEvaluateOptions
                      jarOnDiskWorld in
  err = None /\
  runOut emptyFinalNameEnv "/w/." (evalParams sampleEvaluateOptions "project.packaging") = "jar" /\
  existsIn (files jarOnDiskWorld) "/w/." (jarFile "") = true /\
  existsb (fun c => existsb (String.eqb ("-Dfile=" ++ jarFile "")) (snd c)) (calls w') = false /\
  existsb (fun c => existsb (String.eqb "-Dfile=pom.xml") (snd c)) (calls w') = true.
Proof. vm_compute. repeat split. Qed.

(** ** Witnesses: the hypotheses of the claims hold on concrete inputs *)

Lemma getParametersFromOptions_order_witness :
  getParametersFromOptions (sampleEnv "jar" "app" []) sampleOptions (emptyWorld "/w" []) =
    (fst (fst (getParametersFromOptions (sampleEnv "jar" "app" []) sampleOptions (emptyWorld "/w" []))),
     None,
     snd (getParametersFromOptions (sampleEnv "jar" "app" []) sampleOptions (emptyWorld "/w" []))) /\
  fst (fst (getParametersFromOptions (sampleEnv "jar" "app" []) sampleOptions (emptyWorld "/w" [])))
    = expectedParameters sampleOptions.
Proof.
  assert (E : getParametersFromOptions (sampleEnv "jar" "app" []) sampleOptions (emptyWorld "/w" []) =
    (fst (fst (getParametersFromOptions (sampleEnv "jar" "app" []) sampleOptions (emptyWorld "/w" []))),
     None,
     snd (getParametersFromOptions (sampleEnv "jar" "app" []) sampleOptions (emptyWorld "/w" []))))
    by (vm_compute; reflexivity).
  split; [exact E | exact (getParametersFromOptions_order _ _ _ _ _ E)].
Defined.

Lemma Execute_returns_stdout_witness :
  let o := helpEvaluateOptions sampleEvaluateOptions "project.packaging" in
  let env := sampleEnv "jar" "app" [] in
  let w := emptyWorld "/w" [] in
  fst (getParametersFromOptions env o w) = (expectedParameters o, None) /\
  env_run env (cwd w) "mvn" (expectedParameters o) = ("jar", "", None) /\
  let '(v, err, w') := Execute env o w in
  err = None /\ v = (if ReturnStdout o then "jar" else "") /\
  log_out w' = ((log_out w ++ "jar") ++ "")%string.
Proof.
  intros o env w.
  assert (G : fst (getParametersFromOptions env o w) = (expectedParameters o, None))
    by (vm_compute; reflexivity).
  assert (R : env_run env (cwd w) "mvn" (expectedParameters o) = ("jar", "", None))
    by (vm_compute; reflexivity).
  split; [exact G | split; [exact R | exact (Execute_returns_stdout env o w _ _ _ G R)]].
Defined.

Lemma doInstallMavenArtifacts_restores_cwd_witness :
  HasPrefix (cwd twoModuleWorld) "/" = true /\
  doInstallMavenArtifacts twoModuleEnv sampleEvaluateOptions twoModuleWorld =
    (None, snd (doInstallMavenArtifacts twoModuleEnv sampleEvaluateOptions twoModuleWorld)) /\
  cwd (snd (doInstallMavenArtifacts twoModuleEnv sampleEvaluateOptions twoModuleWorld))
    = cwd twoModuleWorld.
Proof.
  assert (A : HasPrefix (cwd twoModuleWorld) "/" = true) by (vm_compute; reflexivity).
  assert (E : doInstallMavenArtifacts twoModuleEnv sampleEvaluateOptions twoModuleWorld =
    (None, snd (doInstallMavenArtifacts twoModuleEnv sampleEvaluateOptions twoModuleWorld)))
    by (vm_compute; reflexivity).
  split; [exact A | split; [exact E | exact (doInstallMavenArtifacts_restores_cwd _ _ _ _ A E)]].
Defined.

Lemma doInstallMavenArtifacts_calls_witness :
  HasPrefix (cwd twoModuleWorld) "/" = true /\
  doInstallMavenArtifacts twoModuleEnv sampleEvaluateOptions twoModuleWorld =
    (None, snd (doInstallMavenArtifacts twoModuleEnv sampleEvaluateOptions twoModuleWorld)) /\
  calls (snd (doInstallMavenArtifacts twoModuleEnv sampleEvaluateOptions twoModuleWorld))
    = calls twoModuleWorld ++ installCalls twoModuleEnv sampleEvaluateOptions twoModuleWorld.
Proof.
  assert (A : HasPrefix (cwd twoModuleWorld) "/" = true) by (vm_compute; reflexivity).
  assert (E : doInstallMavenArtifacts twoModuleEnv sampleEvaluateOptions twoModuleWorld =
    (None, snd (doInstallMavenArtifacts twoModuleEnv sampleEvaluateOptions twoModuleWorld)))
    by (vm_compute; reflexivity).
  split; [exact A | split; [exact E | exact (doInstallMavenArtifacts_calls _ _ _ _ A E)]].
Defined.

(** ** Further properties of the code *)

(** X1: [getParametersFromOptions] only adds files under [.pipeline/], and the
    only downloads it makes are of the global or project settings URL of the
    options into their [.pipeline] file, from the working directory. *)
Theorem getParametersFromOptions_effects env o w ps err w' :
  getParametersFromOptions env o w = (ps, err, w') ->
  settingsOnly w w' /\
  exists ds, downloads w' = downloads w ++ ds /\ Forall (settingsDownload o (cwd w)) ds.
Proof.
  intros H. split; [exact (proj1 (getParametersFromOptions_spec _ _ _ _ _ _ H))|].
  unfold getParametersFromOptions in H.
  repeat (dl_step2 || split_match); cbn -[settingsError dlOf append HasPrefix String.eqb] in *;
  repeat match goal with
         | H : (_, _, _) = (_, _, _) |- _ => inversion H; subst; clear H
         end;
  repeat match goal with S : settingsOnly _ _ |- _ => destruct S as [? S] end;
  repeat match goal with E : downloads ?x = _ |- context[downloads ?x] => rewrite E end;
  rewrite <- ?app_assoc;
  first [exists []; rewrite app_nil_r; split; [reflexivity | constructor]
        | eexists; split; [reflexivity|]];
  repeat (apply Forall_app; split); try constructor;
  try (apply dlOf_global || apply dlOf_project); congruence.
Qed.

(** X2: when [getParametersFromOptions] fails, it returns no parameters, and
    the error is the wrapped message of a download that failed as the last
    one made: of the global settings (then as the only download) or of the
    project settings. *)
Theorem getParametersFromOptions_error env o w ps e w' :
  getParametersFromOptions env o w = (ps, Some e, w') ->
  ps = [] /\
  exists ds u f e0,
    downloads w' = downloads w ++ ds ++ [(cwd w, u, f)] /\
    env_download env u f = Some e0 /\ e = settingsError u f e0 /\
    (ds = [] /\ u = GlobalSettingsFile o /\ f = ".pipeline/mavenGlobalSettings.xml" \/
     u = ProjectSettingsFile o /\ f = ".pipeline/mavenProjectSettings.xml").
Proof.
  intros H. unfold getParametersFromOptions in H.
  repeat (dl_step2 || split_match); cbn -[settingsError dlOf append HasPrefix String.eqb] in *;
  repeat match goal with
         | H : (_, _, _) = (_, _, _) |- _ => inversion H; subst; clear H
         end;
  (split; [reflexivity|]);
  repeat match goal with S : settingsOnly _ _ |- _ => destruct S as [? S] end;
  repeat match goal with
         | De : forall e, Some ?x = Some e -> _ |- _ =>
             destruct (De x eq_refl) as (?ee & ?Dof & ?Dn & ?Em); clear De
         end;
  repeat match goal with E : downloads ?x = _ |- context[downloads ?x] => rewrite E end;
  repeat match goal with E : dlOf _ _ _ = [_] |- _ => rewrite E end.
  all: match goal with
       | Dof : dlOf ?u ?f ?x = _, Dn : env_download _ ?u ?f = Some ?e0 |- _ =>
           rewrite ?Dof;
           repeat match goal with C : cwd ?a = cwd ?b |- context [cwd ?a] => rewrite C end;
           first [ exists [], u, f, e0; rewrite app_nil_l; split; [reflexivity|]
                 | eexists _, u, f, e0; rewrite <- app_assoc; split; [reflexivity|] ];
           ( split; [exact Dn | split; [assumption | ]]);
           first [left; split; [reflexivity | split; reflexivity] | right; split; reflexivity]
       end.
Qed.

(** X3: after a successful [getParametersFromOptions], calling it again on
    the resulting world gives the same parameters and changes nothing:
    downloaded settings files are not fetched twice. *)
Theorem getParametersFromOptions_idempotent env o w ps w1 :
  getParametersFromOptions env o w = (ps, None, w1) ->
  getParametersFromOptions env o w1 = (ps, None, w1).
Proof.
  unfold getParametersFromOptions. intros H.
  destruct (negb (GlobalSettingsFile o =? "")) eqn:G.
  - destruct (downloadSettingsIfURL env (GlobalSettingsFile o) ".pipeline/mavenGlobalSettings.xml" w)
      as [[g [e1|]] wa] eqn:D1; [inversion H|].
    destruct (negb (ProjectSettingsFile o =? "")) eqn:P.
    + destruct (downloadSettingsIfURL env (ProjectSettingsFile o) ".pipeline/mavenProjectSettings.xml" wa)
        as [[p [e2|]] wb] eqn:D2; [inversion H|].
      inversion H; subst; clear H.
      pose proof D2 as S2. apply downloadSettingsIfURL_spec in S2 as [(Ec & _ & _ & _ & _ & _ & fs & Ef & _) _];
        [|reflexivity].
      rewrite (downloadSettingsIfURL_stable _ _ _ _ _ _ D1 w1); cycle 1.
      { exact Ec. }
      { intros x I. rewrite Ef. apply in_or_app. left. exact I. }
      rewrite (downloadSettingsIfURL_stable _ _ _ _ _ _ D2 w1 eq_refl (fun x I => I)).
      reflexivity.
    + inversion H; subst; clear H.
      rewrite (downloadSettingsIfURL_stable _ _ _ _ _ _ D1 w1 eq_refl (fun x I => I)).
      reflexivity.
  - destruct (negb (ProjectSettingsFile o =? "")) eqn:P.
    + destruct (downloadSettingsIfURL env (ProjectSettingsFile o) ".pipeline/mavenProjectSettings.xml" w)
        as [[p [e2|]] wb] eqn:D2; [inversion H|].
      inversion H; subst; clear H.
      rewrite (downloadSettingsIfURL_stable _ _ _ _ _ _ D2 w1 eq_refl (fun x I => I)).
      reflexivity.
    + inversion H; subst; clear H. reflexivity.
Qed.

(** X4: from an absolute working directory, whatever its outcome,
    [doInstallMavenArtifacts] first runs the flatten goal and then only Maven
    calls in the directory of a globbed pom: a [project.packaging] or
    [project.build.finalName] evaluation, or an install of a file with
    [pom.xml]. *)
Theorem doInstallMavenArtifacts_runs env o w err w' :
  HasPrefix (cwd w) "/" = true ->
  doInstallMavenArtifacts env o w = (err, w') ->
  exists cs, calls w' = calls w ++ (cwd w, "mvn", flattenParameters) :: cs /\
    Forall (fun c => exists p, In p (globbedPoms env w) /\
                       moduleRun (moduleOptions o) (moduleDir (cwd w) p) c) cs.
Proof. intros Habs H. exact (proj1 (doInstallMavenArtifacts_adds _ _ _ _ _ Habs H)). Qed.


(** X6: from an absolute working directory, [doInstallMavenArtifacts] always
    runs at least one Maven call, and every call it runs is in batch mode,
    with the transfer-log define and [--file pom.xml]. *)
Theorem doInstallMavenArtifacts_batch_mode env o w err w' :
  HasPrefix (cwd w) "/" = true ->
  doInstallMavenArtifacts env o w = (err, w') ->
  exists cs, calls w' = calls w ++ cs /\ cs <> [] /\ Forall batchPomRun cs.
Proof.
  intros Habs H. destruct (doInstallMavenArtifacts_adds _ _ _ _ _ Habs H) as [(cs & E & F) _].
  exists ((cwd w, "mvn", flattenParameters) :: cs). split; [exact E|]. split; [discriminate|].
  constructor; [apply flatten_batchPomRun|].
  eapply Forall_impl; [|exact F]. intros c (p & _ & M). eapply moduleRun_batchPomRun; exact M.
Qed.

(** X7: [doInstallMavenArtifacts] returns the flatten result when flattening
    fails, the glob error after a failed glob, and the [os.Getwd] error (or
    none) when the glob finds no pom, without running anything after the
    flatten goal. *)
Theorem doInstallMavenArtifacts_early_exit env o w :
  (fst (flattenPom env w) <> None -> doInstallMavenArtifacts env o w = flattenPom env w) /\
  (fst (flattenPom env w) = None ->
   forall e, snd (env_glob env (cwd w) (filepath_Join "**" "pom.xml")) = Some e ->
   doInstallMavenArtifacts env o w = (Some e, snd (flattenPom env w))) /\
  (fst (flattenPom env w) = None ->
   env_glob env (cwd w) (filepath_Join "**" "pom.xml") = ([], None) ->
   doInstallMavenArtifacts env o w = (env_getwd_err env, snd (flattenPom env w))).
Proof.
  unfold doInstallMavenArtifacts.
  destruct (flattenPom env w) as [fe w1] eqn:F.
  apply flattenPom_calls in F as [[Hc1 _] _]. cbn [fst snd].
  unfold glob, getwd. rewrite Hc1.
  split; [|split].
  - intros N. destruct fe; [reflexivity | exfalso; apply N; reflexivity].
  - intros -> e G. destruct (env_glob env (cwd w) (filepath_Join "**" "pom.xml")) as [poms ge].
    cbn in G. subst ge. reflexivity.
  - intros -> G. rewrite G. destruct (env_getwd_err env); reflexivity.
Qed.

(** X8: installing the jar, classes jar or war of a final name runs one Maven
    call with [-Dfile=] the artifact; the jar and the classes jar are
    installed with [-Dpackaging=jar], the classes jar also with
    [-Dclassifier=classes]. *)
Theorem InstallFile_artifact_defines env f m2Path w :
  (exists ps, calls (snd (InstallFile env (jarFile f) "pom.xml" m2Path w)) =
     calls w ++ [(cwd w, "mvn", ps)] /\
     In ("-Dfile=" ++ jarFile f)%string ps /\ In "-Dpackaging=jar" ps) /\
  (exists ps, calls (snd (InstallFile env (classesJarFile f) "pom.xml" m2Path w)) =
     calls w ++ [(cwd w, "mvn", ps)] /\
     In ("-Dfile=" ++ classesJarFile f)%string ps /\ In "-Dpackaging=jar" ps /\
     In "-Dclassifier=classes" ps) /\
  (exists ps, calls (snd (InstallFile env (warFile f) "pom.xml" m2Path w)) =
     calls w ++ [(cwd w, "mvn", ps)] /\ In ("-Dfile=" ++ warFile f)%string ps).
Proof.
  rewrite !InstallFile_pom_calls.
  assert (Fj : forall file, String.eqb ("target/" ++ file) "" = false) by reflexivity.
  assert (Df : forall file, String.eqb ("target/" ++ file) "" = false ->
                 In ("-Dfile=" ++ "target/" ++ file)%string
                    (installParameters ("target/" ++ file) "pom.xml" m2Path)).
  { intros file E. unfold installParameters, installDefines. rewrite E.
    rewrite !in_app_iff. cbn -[Contains append]. tauto. }
  unfold jarFile, classesJarFile, warFile.
  split; [|split]; eexists; (split; [reflexivity|]).
  - split; [apply Df, Fj|].
    apply (installParameters_In _ _ _ ".jar"); [apply Fj | | reflexivity].
    apply Contains_app_r, Contains_app_r. reflexivity.
  - split; [apply Df, Fj|]. split.
    + apply (installParameters_In _ _ _ ".jar"); [apply Fj | | reflexivity].
      apply Contains_app_r, Contains_app_r. reflexivity.
    + apply (installParameters_In _ _ _ "-classes"); [apply Fj | | reflexivity].
      apply Contains_app_r, Contains_app_r. reflexivity.
  - apply Df, Fj.
Qed.

(** X9: the defines of [InstallFile] look at the whole file name: the jar of
    a final name containing [-classes] is installed with
    [-Dclassifier=classes], and the war of a final name containing [.jar]
    with [-Dpackaging=jar]. *)
Theorem InstallFile_final_name_leaks env f m2Path w :
  (Contains f "-classes" = true ->
   exists ps, calls (snd (InstallFile env (jarFile f) "pom.xml" m2Path w)) =
     calls w ++ [(cwd w, "mvn", ps)] /\ In "-Dclassifier=classes" ps) /\
  (Contains f ".jar" = true ->
   exists ps, calls (snd (InstallFile env (warFile f) "pom.xml" m2Path w)) =
     calls w ++ [(cwd w, "mvn", ps)] /\ In "-Dpackaging=jar" ps).
Proof.
  rewrite !InstallFile_pom_calls. unfold jarFile, warFile.
  split; intros C; eexists; (split; [reflexivity|]).
  - apply (installParameters_In _ _ _ "-classes"); [reflexivity | | reflexivity].
    apply Contains_app_r, Contains_app_l. exact C.
  - apply (installParameters_In _ _ _ ".jar"); [reflexivity | | reflexivity].
    apply Contains_app_r, Contains_app_l. exact C.
Qed.

(** X10: [getTestModulesExcludes] gives [-pl !m] for each of [unit-tests] and
    [integration-tests], in this order, whose [pom.xml] exists in the working
    directory, and nothing else. *)
Theorem getTestModulesExcludes_modules w :
  getTestModulesExcludes w =
  flat_map (fun m => ["-pl"; "!" ++ m]%string)
    (filter (fun m => existsIn (files w) (cwd w) (m ++ "/pom.xml"))
       ["unit-tests"; "integration-tests"]).
Proof.
  unfold getTestModulesExcludes, FileExists, existsIn. cbn [filter flat_map append].
  destruct (existsb (fun '(d, f) => (d =? cwd w) && (f =? "unit-tests/pom.xml")) (files w));
  destruct (existsb (fun '(d, f) => (d =? cwd w) && (f =? "integration-tests/pom.xml")) (files w));
  reflexivity.
Qed.

(** X11: the step metadata lists, in order, exactly the parameters for which
    [addNexusUploadFlags] registers a flag, all of type string, and marks
    mandatory exactly the flags it marks required. *)
Theorem nexusUploadMetadata_matches_flags getenv :
  let cmd := Cmd.addNexusUploadFlags getenv {| Cmd.cmd_flags := []; Cmd.cmd_required := [] |} in
  map Cmd.param_Name (Cmd.Parameters Cmd.nexusUploadMetadata) = map Cmd.flag_name (Cmd.cmd_flags cmd) /\
  map Cmd.param_Name (filter Cmd.param_Mandatory (Cmd.Parameters Cmd.nexusUploadMetadata))
    = Cmd.cmd_required cmd /\
  Forall (fun p => Cmd.param_Type p = "string") (Cmd.Parameters Cmd.nexusUploadMetadata) /\
  Cmd.md_Name (Cmd.Metadata Cmd.nexusUploadMetadata) = "nexusUpload".
Proof. cbn. repeat split; repeat constructor. Qed.

(** X12: the [Run] function of the command initialises telemetry and then
    sends it exactly once, with the elapsed time, whatever the step does; the
    error code sent is [0] when the step returns and the step's own value
    (initially [1]) when it panics or exits fatally. *)
Theorem Run_sends_telemetry_once noTelemetry elapsed nexusUpload cfg :
  let '(events, outcome) := Cmd.Run noTelemetry elapsed nexusUpload cfg in
  let '(outcome', d) := nexusUpload cfg {| Cmd.ErrorCode := "1"; Cmd.Duration := "" |} in
  outcome = outcome' /\
  exists sent, events = [Cmd.Initialize noTelemetry "nexusUpload"; Cmd.Send sent] /\
    Cmd.Duration sent = elapsed /\
    Cmd.ErrorCode sent = (match outcome with Cmd.Returned => "0" | _ => Cmd.ErrorCode d end).
Proof.
  unfold Cmd.Run.
  change (Cmd.set_ErrorCode "1" _) with {| Cmd.ErrorCode := "1"; Cmd.Duration := "" |}.
  destruct (nexusUpload cfg {| Cmd.ErrorCode := "1"; Cmd.Duration := "" |}) as [[] d];
    (split; [reflexivity|]); eexists; (split; [reflexivity|]); split; reflexivity.
Qed.


(** ** Witnesses: the hypotheses of the further properties hold on concrete
    inputs *)

Lemma getParametersFromOptions_effects_witness :
  getParametersFromOptions (sampleEnv "jar" "app" []) sampleOptions (emptyWorld "/w" []) =
    (fst (fst settingsRun), None, snd settingsRun) /\
  downloads (snd settingsRun) =
    [("/w", "https://example.org/settings.xml", ".pipeline/mavenGlobalSettings.xml")] /\
  (settingsOnly (emptyWorld "/w" []) (snd settingsRun) /\
   exists ds, downloads (snd settingsRun) = downloads (emptyWorld "/w" []) ++ ds /\
     Forall (settingsDownload sampleOptions (cwd (emptyWorld "/w" []))) ds).
Proof.
  assert (E : getParametersFromOptions (sampleEnv "jar" "app" []) sampleOptions (emptyWorld "/w" []) =
    (fst (fst settingsRun), None, snd settingsRun)) by (vm_compute; reflexivity).
  split; [exact E | split; [vm_compute; reflexivity |]].
  exact (getParametersFromOptions_effects _ _ _ _ _ _ E).
Defined.

Lemma getParametersFromOptions_error_witness :
  getParametersFromOptions failingDownloadEnv sampleOptions (emptyWorld "/w" []) =
    ([], Some (settingsError "https://example.org/settings.xml" ".pipeline/mavenGlobalSettings.xml"
                 "404 Not Found"), snd failedSettingsRun) /\
  ([] = @nil string /\
   exists ds u f e0,
     downloads (snd failedSettingsRun) = downloads (emptyWorld "/w" []) ++ ds ++ [(cwd (emptyWorld "/w" []), u, f)] /\
     env_download failingDownloadEnv u f = Some e0 /\
     settingsError "https://example.org/settings.xml" ".pipeline/mavenGlobalSettings.xml"
       "404 Not Found" = settingsError u f e0 /\
     (ds = [] /\ u = GlobalSettingsFile sampleOptions /\ f = ".pipeline/mavenGlobalSettings.xml" \/
      u = ProjectSettingsFile sampleOptions /\ f = ".pipeline/mavenProjectSettings.xml")).
Proof.
  assert (E : getParametersFromOptions failingDownloadEnv sampleOptions (emptyWorld "/w" []) =
    ([], Some (settingsError "https://example.org/settings.xml" ".pipeline/mavenGlobalSettings.xml"
                 "404 Not Found"), snd failedSettingsRun)) by (vm_compute; reflexivity).
  split; [exact E | exact (getParametersFromOptions_error _ _ _ _ _ _ E)].
Defined.

Lemma getParametersFromOptions_idempotent_witness :
  getParametersFromOptions (sampleEnv "jar" "app" []) sampleOptions (emptyWorld "/w" []) =
    (fst (fst settingsRun), None, snd settingsRun) /\
  files (snd settingsRun) = [("/w", ".pipeline/mavenGlobalSettings.xml")] /\
  getParametersFromOptions (sampleEnv "jar" "app" []) sampleOptions (snd settingsRun) =
    (fst (fst settingsRun), None, snd settingsRun).
Proof.
  assert (E : getParametersFromOptions (sampleEnv "jar" "app" []) sampleOptions (emptyWorld "/w" []) =
    (fst (fst settingsRun), None, snd settingsRun)) by (vm_compute; reflexivity).
  split; [exact E | split; [vm_compute; reflexivity |]].
  exact (getParametersFromOptions_idempotent _ _ _ _ _ E).
Defined.

Lemma doInstallMavenArtifacts_runs_witness :
  HasPrefix (cwd twoModuleWorld) "/" = true /\
  doInstallMavenArtifacts subFailsEnv sampleEvaluateOptions twoModuleWorld =
    (fst subFailsRun, snd subFailsRun) /\
  fst subFailsRun <> None /\
  exists cs, calls (snd subFailsRun) =
      calls twoModuleWorld ++ (cwd twoModuleWorld, "mvn", flattenParameters) :: cs /\
    Forall (fun c => exists p, In p (globbedPoms subFailsEnv twoModuleWorld) /\
              moduleRun (moduleOptions sampleEvaluateOptions) (moduleDir (cwd twoModuleWorld) p) c) cs.
Proof.
  assert (A : HasPrefix (cwd twoModuleWorld) "/" = true) by (vm_compute; reflexivity).
  assert (E : doInstallMavenArtifacts subFailsEnv sampleEvaluateOptions twoModuleWorld =
    (fst subFailsRun, snd subFailsRun)) by (vm_compute; reflexivity).
  split; [exact A | split; [exact E | split; [vm_compute; discriminate |]]].
  exact (doInstallMavenArtifacts_runs _ _ _ _ _ A E).
Defined.


Lemma doInstallMavenArtifacts_batch_mode_witness :
  HasPrefix (cwd twoModuleWorld) "/" = true /\
  doInstallMavenArtifacts subFailsEnv sampleEvaluateOptions twoModuleWorld =
    (fst subFailsRun, snd subFailsRun) /\
  exists cs, calls (snd subFailsRun) = calls twoModuleWorld ++ cs /\ cs <> [] /\
    Forall batchPomRun cs.
Proof.
  assert (A : HasPrefix (cwd twoModuleWorld) "/" = true) by (vm_compute; reflexivity).
  assert (E : doInstallMavenArtifacts subFailsEnv sampleEvaluateOptions twoModuleWorld =
    (fst subFailsRun, snd subFailsRun)) by (vm_compute; reflexivity).
  split; [exact A | split; [exact E |]].
  exact (doInstallMavenArtifacts_batch_mode _ _ _ _ _ A E).
Defined.

End Proofs.
